(** * ETH conversion backend V2 (server.js): request handlers and their contract

    A shallow embedding of [server.js]: the Express handlers [/convert],
    its four alias routes, [/balance], [/status] and [/health], together with
    the provider bootstrap [initProvider].

    - JavaScript numbers are IEEE 754 binary64 values, taken from the
      Standard Library's [SpecFloat] at precision 53 and maximal exponent 1024.
    - The two module-level bindings [provider] and [wallet] are fields of an
      explicit [State]; every handler is a state transformer that may throw.
    - What the file imports (string parsing and printing of numbers, the
      ethers library, the JSON-RPC node behind it) is a field of a [World]
      record: theorems hold for every world, worked examples run in the
      worlds of [Scenario].  Operators, [Math.min], [parseFloat] on values
      that are not strings and [toFixed(6)] are defined here.
    - One request is followed from start to end; requests interleaved at an
      [await] are not modelled.
    - Calls that leave the process are recorded in [trace], in program order,
      so that "nothing was signed" is a statement about the trace. *)

From Stdlib Require Import ZArith Lia Bool List String Ascii.
From Stdlib Require Import SpecFloat DecimalString.
Import ListNotations.

Local Open Scope Z_scope.
Local Open Scope string_scope.

(* ================================================================== *)
(** ** JavaScript numbers *)

Definition number : Type := spec_float.

Module Num.

Definition prec : Z := 53.
Definition emax : Z := 1024.

Definition NaN : number := S754_nan.
Definition zero : number := S754_zero false.

(** The double nearest to an integer. *)
Definition of_Z (z : Z) : number := binary_normalize prec emax z 0 false.

(** The decimal literal [m * 10^-k], as one correctly rounded division of
    two exactly representable integers ([|m| < 2^53], [k <= 22]):
    [dec 2 3] is the literal [0.002]. *)
Definition dec (m : Z) (k : nat) : number :=
  SFdiv prec emax (of_Z m) (of_Z (10 ^ Z.of_nat k)).

Definition sub (x y : number) : number := SFsub prec emax x y.
Definition add (x y : number) : number := SFadd prec emax x y.

(** [x < y], [x <= y] and [x >= y]: all false when an operand is NaN. *)
Definition ltb (x y : number) : bool := SFltb x y.
Definition leb (x y : number) : bool := SFleb x y.
Definition geb (x y : number) : bool := SFleb y x.

Definition is_nan (x : number) : bool :=
  match x with S754_nan => true | _ => false end.

Definition is_zero (x : number) : bool :=
  match x with S754_zero _ => true | _ => false end.

(** ToBoolean on a number: NaN, +0 and -0 are falsy. *)
Definition truthy (x : number) : bool := negb (is_nan x || is_zero x).

(** [a || b] on numbers. *)
Definition or (a b : number) : number := if truthy a then a else b.

(** [Math.min(a, b)]: NaN when an operand is NaN, and -0 below +0. *)
Definition min (a b : number) : number :=
  match SFcompare a b with
  | None => NaN
  | Some Lt => a
  | Some Gt => b
  | Some Eq => match a with S754_zero true => a | _ => b end
  end.

(** Strictly below zero. *)
Definition negative (x : number) : bool :=
  match x with
  | S754_infinity true | S754_finite true _ _ => true
  | _ => false
  end.

End Num.

(* ================================================================== *)
(** ** JavaScript values read from, and written to, JSON bodies *)

Inductive value : Type :=
| Undefined                (* the field is absent *)
| Null
| Bool (b : bool)
| Num (x : number)
| Str (s : string)
| Obj (repr : string).     (* an array or object; [repr] is its ToString *)

(** ToBoolean. *)
Definition truthy (v : value) : bool :=
  match v with
  | Undefined | Null => false
  | Bool b => b
  | Num x => Num.truthy x
  | Str s => negb (s =? "")
  | Obj _ => true
  end.

(** [a || b]. *)
Definition or (a b : value) : value := if truthy a then a else b.

Declare Scope js_scope.
Delimit Scope js_scope with js.
Infix "||" := or (at level 50, left associativity) : js_scope.

(* ================================================================== *)
(** ** Decimal notation *)

Module Decimal.

Definition print_digits (n : Z) : string :=
  NilZero.string_of_uint (N.to_uint (Z.to_N n)).

Fixpoint zeros (n : nat) : string :=
  match n with O => "" | S n' => String "0" (zeros n') end.

(** [n] printed on at least [width] digits. *)
Definition pad (width : nat) (n : Z) : string :=
  let d := print_digits n in
  zeros (width - String.length d) ++ d.

(** [n / 10^k] in decimal notation, [k] digits after the point. *)
Definition print_fixed (n : Z) (k : nat) : string :=
  let p := 10 ^ Z.of_nat k in
  match k with
  | O => print_digits n
  | _ => print_digits (n / p) ++ "." ++ pad k (n mod p)
  end.

(** The integer nearest to [m * 2^e * 10^k], ties upwards. *)
Definition nearest (m : positive) (e : Z) (k : nat) : Z :=
  let p := 10 ^ Z.of_nat k in
  if (0 <=? e)%Z then Zpos m * 2 ^ e * p
  else (2 * Zpos m * p + 2 ^ (- e)) / (2 * 2 ^ (- e)).

End Decimal.

(* ================================================================== *)
(** ** Thrown errors *)

(** [inl msg] is a thrown [Error] whose [message] is [msg]. *)
Definition Exc (A : Type) : Type := (string + A)%type.

(* ================================================================== *)
(** ** Data of the handlers *)

(** A [JsonRpcProvider] is identified by the URL it was built from. *)
Definition Provider : Type := string.

(** [new ethers.Wallet(PRIVATE_KEY, provider)]. *)
Record Wallet : Type := mkWallet {
  address : string;
  connected : Provider
}.

(** The fields of [req.body] that [/convert] destructures; [express.json()]
    has parsed the body, and a field that is missing reads [undefined]. *)
Record Body : Type := mkBody {
  amount : value;
  amountETH : value;
  to : value;
  toAddress : value;
  treasury : value
}.

Definition emptyBody : Body :=
  mkBody Undefined Undefined Undefined Undefined Undefined.

(** The transaction object built by [/convert]. *)
Record Tx : Type := mkTx {
  tx_to : value;
  tx_value : Z;
  tx_nonce : number;
  tx_gasLimit : Z;
  tx_gasPrice : option Z;
  tx_chainId : Z
}.

(** What [provider.broadcastTransaction] resolves to: the hash, and the
    provider that [wait] will poll. *)
Record TxResponse : Type := mkTxResponse {
  via : Provider;
  hash : string
}.

Record Receipt : Type := mkReceipt {
  blockNumber : number;
  gasUsed : Z
}.

(** What [res.status(c).json(o)] sends: the status code and the object. *)
Record Response : Type := mkResponse {
  status : Z;
  json : list (string * value)
}.

Definition field (k : string) (r : Response) : option value :=
  option_map snd (find (fun kv => fst kv =? k) (json r)).

(** Calls that reach the network or use the private key. *)
Inductive Event : Type :=
| EvGetBlockNumber (p : Provider)
| EvGetBalance (p : Provider) (addr : string)
| EvGetTransactionCount (p : Provider) (addr : string)
| EvGetFeeData (p : Provider)
| EvSign (w : Wallet) (tx : Tx)
| EvBroadcast (p : Provider) (signedTx : string)
| EvWait (p : Provider) (txHash : string).

(* ================================================================== *)
(** ** The world outside server.js *)

Record World : Type := mkWorld {
  (* process.env *)
  PRIVATE_KEY : option string;
  (* JavaScript built-ins *)
  parseFloatString : string -> number;       (* parseFloat on a string *)
  Number_toString : number -> string;        (* x.toString() *)
  (* ethers: pure helpers *)
  formatEther : Z -> string;
  parseEther : string -> Exc Z;
  walletAddress : string -> Exc string;      (* new ethers.Wallet(key).address *)
  signTransaction : Wallet -> Tx -> Exc string;
  (* ethers: JSON-RPC calls *)
  getBlockNumber : Provider -> Exc Z;
  getBalance : Provider -> string -> Exc Z;
  getTransactionCount : Provider -> string -> Exc number;
  getFeeData : Provider -> Exc (option Z);   (* feeData.gasPrice *)
  broadcastTransaction : Provider -> string -> Exc string;  (* txResponse.hash *)
  wait : Provider -> string -> Exc Receipt   (* txResponse.wait(1) *)
}.

(* ================================================================== *)
(** ** Module state and the handler monad *)

Record State : Type := mkState {
  provider : option Provider;
  wallet : option Wallet;
  trace : list Event
}.

Definition M (A : Type) : Type := State -> Exc A * State.

Definition ret {A} (a : A) : M A := fun s => (inr a, s).

Definition throw {A} (msg : string) : M A := fun s => (inl msg, s).

Definition bind {A B} (m : M A) (k : A -> M B) : M B :=
  fun s => match m s with
           | (inr a, s') => k a s'
           | (inl e, s') => (inl e, s')
           end.

(** [try { m } catch (e) { h e.message }]: assignments made before the throw
    stay. *)
Definition tryCatch {A} (m : M A) (h : string -> M A) : M A :=
  fun s => match m s with
           | (inl e, s') => h e s'
           | r => r
           end.

Declare Scope monad_scope.
Delimit Scope monad_scope with monad.
Notation "x <- m ;; k" := (bind m (fun x => k))
  (at level 61, m at next level, right associativity) : monad_scope.
Notation "m ;; k" := (bind m (fun _ => k))
  (at level 61, right associativity) : monad_scope.
Local Open Scope monad_scope.

Definition getProvider : M (option Provider) := fun s => (inr (provider s), s).
Definition getWallet : M (option Wallet) := fun s => (inr (wallet s), s).

Definition setProvider (p : Provider) : M unit :=
  fun s => (inr tt, mkState (Some p) (wallet s) (trace s)).

Definition setWallet (w : Wallet) : M unit :=
  fun s => (inr tt, mkState (provider s) (Some w) (trace s)).

Definition emit (e : Event) : M unit :=
  fun s => (inr tt, mkState (provider s) (wallet s) (trace s ++ [e])).

(** An outside call: recorded, then its result returned or thrown. *)
Definition call {A} (e : Event) (r : Exc A) : M A :=
  emit e ;; (fun s => (r, s)).

(** [provider.f(...)] on the module-level [provider]; a [TypeError] when it
    is still [null]. *)
Definition withProvider {A} (name : string) (k : Provider -> M A) : M A :=
  op <- getProvider ;;
  match op with
  | Some p => k p
  | None =>
      throw ("Cannot read properties of null (reading '" ++ name ++ "')")
  end.

(* ================================================================== *)
(** ** server.js *)

Definition TREASURY : string := "0x4024Fd78E2AD5532FBF3ec2B3eC83870FAe45fC7".

Definition RPC_URLS : list string :=
  [ "https://ethereum-rpc.publicnode.com";
    "https://eth.drpc.org";
    "https://rpc.ankr.com/eth";
    "https://eth.llamarpc.com" ].

(** The literals of the source. *)
Definition lit_0_01 : number := Num.dec 1 2.     (* 0.01 *)
Definition lit_0_002 : number := Num.dec 2 3.    (* 0.002 *)

(** Status used by [res.json] when [res.status] was not called. *)
Definition OK : Z := 200.

Section Server.

Variable W : World.

(** [parseFloat(v)]: [v] is converted to a string and its longest numeric
    prefix is read.  The strings of [undefined], [null], [true] and [false]
    have no such prefix; the string of a number reads back as that number,
    with -0 printed as "0". *)
Definition parseFloat (v : value) : number :=
  match v with
  | Str s | Obj s => parseFloatString W s
  | Num (S754_zero _) => Num.zero
  | Num x => x
  | Undefined | Null | Bool _ => Num.NaN
  end.

(** [if (PRIVATE_KEY)]: a key that is set and not the empty string. *)
Definition configuredKey : option string :=
  match PRIVATE_KEY W with
  | Some k => if k =? "" then None else Some k
  | None => None
  end.

(** One round of the loop of [initProvider], for the endpoint [rpc]:
    the body of its [try]. *)
Definition connect (rpc : string) : M bool :=
  setProvider rpc ;;
  call (EvGetBlockNumber rpc) (getBlockNumber W rpc) ;;
  match configuredKey with
  | Some k =>
      a <- (fun s => (walletAddress W k, s)) ;;
      setWallet (mkWallet a rpc)
  | None => ret tt
  end ;;
  ret true.

Fixpoint initProvider_from (rpcs : list string) : M bool :=
  match rpcs with
  | [] => ret false
  | rpc :: rest => tryCatch (connect rpc) (fun _ => initProvider_from rest)
  end.

Definition initProvider : M bool := initProvider_from RPC_URLS.

(** [if (!provider || !wallet) await initProvider();] *)
Definition bootstrap : M unit :=
  fun s =>
    match provider s, wallet s with
    | Some _, Some _ => (inr tt, s)
    | _, _ => (initProvider ;; ret tt) s
    end.

(** [parseFloat(amountETH || amount) || 0.01] *)
Definition ethAmount (b : Body) : number :=
  Num.or (parseFloat (amountETH b || amount b)%js) lit_0_01.

(** [to || toAddress || treasury || TREASURY] *)
Definition destination (b : Body) : value :=
  (to b || toAddress b || treasury b || Str TREASURY)%js.

(** [parseFloat(ethers.formatEther(balance))] *)
Definition balanceETH (balance : Z) : number :=
  parseFloat (Str (formatEther W balance)).

(** [Math.min(ethAmount, balanceETH - 0.002)] *)
Definition maxTransfer (b : Body) (balance : Z) : number :=
  Num.min (ethAmount b) (Num.sub (balanceETH balance) lit_0_002).

(** [gasUsed.toString()] on a bigint. *)
Definition BigInt_toString (z : Z) : string :=
  NilZero.string_of_int (Z.to_int z).

Definition needGas (bal : number) : Response :=
  mkResponse 400 [("error", Str "Need 0.002 ETH for gas"); ("balance", Num bal)].

Definition insufficient (bal : number) : Response :=
  mkResponse 400 [("error", Str "Insufficient after gas"); ("balance", Num bal)].

Definition notConfigured : Response :=
  mkResponse 500 [("error", Str "Wallet not configured")].

Definition failure (msg : string) : Response :=
  mkResponse 500 [("error", Str msg)].

Definition converted (h : string) (w : Wallet) (b : Body) (r : Receipt)
  : Response :=
  mkResponse OK
    [ ("success", Bool true);
      ("txHash", Str h);
      ("hash", Str h);
      ("transactionHash", Str h);
      ("from", Str (address w));
      ("to", destination b);
      ("amount", Num (ethAmount b));
      ("blockNumber", Num (blockNumber r));
      ("gasUsed", Str (BigInt_toString (gasUsed r))) ].

(** The transaction object of [/convert]. *)
Definition buildTx (b : Body) (value : Z) (nonce : number)
    (gasPrice : option Z) : Tx :=
  {| tx_to := destination b;
     tx_value := value;
     tx_nonce := nonce;
     tx_gasLimit := 21000;
     tx_gasPrice := gasPrice;
     tx_chainId := 1 |}.

(** The part of [/convert] that follows the wallet check. *)
Definition transfer (w : Wallet) (b : Body) : M Response :=
  balance <- withProvider "getBalance" (fun p =>
               call (EvGetBalance p (address w)) (getBalance W p (address w))) ;;
  if Num.ltb (balanceETH balance) lit_0_002 then
    ret (needGas (balanceETH balance))
  else if Num.leb (maxTransfer b balance) Num.zero then
    ret (insufficient (balanceETH balance))
  else
    nonce <- withProvider "getTransactionCount" (fun p =>
               call (EvGetTransactionCount p (address w))
                    (getTransactionCount W p (address w))) ;;
    gasPrice <- withProvider "getFeeData" (fun p =>
               call (EvGetFeeData p) (getFeeData W p)) ;;
    value <- (fun s => (parseEther W (Number_toString W (ethAmount b)), s)) ;;
    let tx := buildTx b value nonce gasPrice in
    signedTx <- call (EvSign w tx) (signTransaction W w tx) ;;
    txResponse <- withProvider "broadcastTransaction" (fun p =>
               h <- call (EvBroadcast p signedTx)
                         (broadcastTransaction W p signedTx) ;;
               ret (mkTxResponse p h)) ;;
    receipt <- call (EvWait (via txResponse) (hash txResponse))
                    (wait W (via txResponse) (hash txResponse)) ;;
    ret (converted (hash txResponse) w b receipt).

(** [app.post('/convert', ...)] *)
Definition convert (b : Body) : M Response :=
  tryCatch
    (bootstrap ;;
     ow <- getWallet ;;
     match ow with
     | None => ret notConfigured
     | Some w => transfer w b
     end)
    (fun msg => ret (failure msg)).

(** [app.get('/balance', ...)]: in [provider.getBalance(wallet.address)]
    the reference to [provider] is evaluated before the argument. *)
Definition balance_route : M Response :=
  tryCatch
    (bootstrap ;;
     bal <- withProvider "getBalance" (fun p =>
              ow <- getWallet ;;
              match ow with
              | None => throw "Cannot read properties of null (reading 'address')"
              | Some w =>
                  call (EvGetBalance p (address w)) (getBalance W p (address w))
              end) ;;
     ow <- getWallet ;;
     match ow with
     | None => throw "Cannot read properties of null (reading 'address')"
     | Some w =>
         ret (mkResponse OK
                [ ("wallet", Str (address w));
                  ("balance", Str (formatEther W bal));
                  ("treasury", Str TREASURY) ])
     end)
    (fun msg => ret (failure msg)).

(** [x.toFixed(6)]: a number that is not finite prints as [toString] does;
    otherwise the sign, then [|x|] as [toString] prints it from 1e21 on, and
    below that the nearest multiple of 10^-6 (the larger one on a tie) with
    six digits after the point. *)
Definition toFixed6 (x : number) : string :=
  match x with
  | S754_nan => "NaN"
  | S754_infinity s => if s then "-Infinity" else "Infinity"
  | S754_zero _ => "0.000000"
  | S754_finite s m e =>
      (if s then "-" else "")
        ++ (if Num.geb (S754_finite false m e) (Num.of_Z (10 ^ 21))
            then Number_toString W (S754_finite false m e)
            else Decimal.print_fixed (Decimal.nearest m e 6) 6)
  end.

(** The [try { ... } catch (e) {}] of [/status]: the balance, or the
    initial 0. *)
Definition readBalance : M number :=
  tryCatch
    (op <- getProvider ;;
     ow <- getWallet ;;
     match op, ow with
     | Some p, Some w =>
         bal <- call (EvGetBalance p (address w)) (getBalance W p (address w)) ;;
         ret (balanceETH bal)
     | _, _ => ret Num.zero
     end)
    (fun _ => ret Num.zero).

(** [app.get('/status', ...)] *)
Definition status_route : M Response :=
  bal <- readBalance ;;
  ow <- getWallet ;;
  ret (mkResponse OK
         [ ("status", Str "online");
           ("method", Str "V2-SignBroadcast");
           ("wallet", match ow with
                      | Some w => Str (address w)
                      | None => Undefined
                      end);
           ("balance", Str (toFixed6 bal)) ]).

(** [app.get('/health', ...)] *)
Definition health_route : M Response :=
  ret (mkResponse OK [("status", Str "healthy")]).

(** *** Routing *)

Inductive Method : Type := GET | POST.

Record Request : Type := mkRequest {
  method : Method;
  url : string;
  body : Body
}.

Inductive Handler : Type :=
| Convert
| Rewrite (target : string)   (* req.url = target; app._router.handle(req, res) *)
| Balance
| Status
| Health.

(** The routes in the order of their registration.  A route is taken when
    method and path are the request's. *)
Definition routes : list (Method * string * Handler) :=
  [ (POST, "/convert", Convert);
    (POST, "/send-eth", Rewrite "/convert");
    (POST, "/withdraw", Rewrite "/convert");
    (POST, "/transfer", Rewrite "/convert");
    (POST, "/coinbase-withdraw", Rewrite "/convert");
    (GET, "/balance", Balance);
    (GET, "/status", Status);
    (GET, "/health", Health) ].

Definition same_method (a b : Method) : bool :=
  match a, b with
  | GET, GET | POST, POST => true
  | _, _ => false
  end.

Definition matches (req : Request) (r : Method * string * Handler) : bool :=
  same_method (method req) (fst (fst r)) && (url req =? snd (fst r)).

(** Express answers 404 when no route is taken. *)
Definition notFound : Response := mkResponse 404 [].

(** [app._router.handle(req, res)].  An alias enters the router again, so
    the dispatch is bounded by [fuel]: [None] when it runs out. *)
Fixpoint handle (fuel : nat) (req : Request) (s : State)
  : option (Exc Response * State) :=
  match fuel with
  | O => None
  | S fuel' =>
      match find (matches req) routes with
      | None => Some (inr notFound, s)
      | Some (_, _, Convert) => Some (convert (body req) s)
      | Some (_, _, Rewrite target) =>
          handle fuel' (mkRequest (method req) target (body req)) s
      | Some (_, _, Balance) => Some (balance_route s)
      | Some (_, _, Status) => Some (status_route s)
      | Some (_, _, Health) => Some (health_route s)
      end
  end.

(** The alias paths. *)
Definition aliases : list string :=
  [ "/send-eth"; "/withdraw"; "/transfer"; "/coinbase-withdraw" ].

End Server.


(* ================================================================== *)
(** ** What a run did *)

(** The state [/convert] and [/balance] continue from, once
    [if (!provider || !wallet) await initProvider();] has run. *)
Definition booted (W : World) (s : State) : State := snd (bootstrap W s).

(** The liveness probe of [initProvider]. *)
Definition is_probe (e : Event) : bool :=
  match e with EvGetBlockNumber _ => true | _ => false end.

Definition reads_balance (e : Event) : bool :=
  match e with EvGetBalance _ _ => true | _ => false end.

(** Signing or broadcasting a transaction. *)
Definition moves_funds (e : Event) : bool :=
  match e with EvSign _ _ | EvBroadcast _ _ => true | _ => false end.

(** The transactions signed in a trace. *)
Fixpoint signed (l : list Event) : list Tx :=
  match l with
  | EvSign _ tx :: l' => tx :: signed l'
  | _ :: l' => signed l'
  | [] => []
  end.

(** [/status] has no balance to show: no provider, no wallet, or a failing
    [getBalance]. *)
Definition unreadable (W : World) (s : State) : Prop :=
  match provider s, wallet s with
  | Some p, Some w => exists msg, getBalance W p (address w) = inl msg
  | _, _ => True
  end.

(* ================================================================== *)
(** ** A reference world for worked examples

    The built-ins follow ECMAScript and ethers v6 on the inputs described at
    each definition; the node answers every call. *)

Module Ref.

Local Open Scope list_scope.

Definition digit (c : ascii) : option Z :=
  let n := Z.of_N (N_of_ascii c) in
  if ((48 <=? n) && (n <=? 57))%Z then Some (n - 48) else None.

(** The longest prefix of decimal digits: its value, its length, the rest. *)
Fixpoint digits_from (acc : Z) (len : nat) (s : string) : Z * nat * string :=
  match s with
  | String c s' =>
      match digit c with
      | Some d => digits_from (10 * acc + d) (S len) s'
      | None => (acc, len, s)
      end
  | EmptyString => (acc, len, s)
  end.

Definition read_digits : string -> Z * nat * string := digits_from 0 0.

(** The double nearest to [n / d]. *)
Definition ratio (n d : positive) : number :=
  SFdiv Num.prec Num.emax (S754_finite false n 0) (S754_finite false d 0).

(** The double nearest to [m * 10^e10], negated when [neg]. *)
Definition scaled (neg : bool) (m e10 : Z) : number :=
  let x := match m with
           | Zpos p =>
               if (0 <=? e10)%Z then Num.of_Z (m * 10 ^ e10)
               else ratio p (Z.to_pos (10 ^ (- e10)))
           | _ => Num.zero
           end in
  if neg then SFopp x else x.

Definition read_sign (s : string) : bool * string :=
  match s with
  | String "-" s' => (true, s')
  | String "+" s' => (false, s')
  | _ => (false, s)
  end.

Definition is_space (c : ascii) : bool :=
  let n := N_of_ascii c in
  ((n =? 32) || ((9 <=? n) && (n <=? 13)))%N.

Fixpoint trim_left (s : string) : string :=
  match s with
  | String c s' => if is_space c then trim_left s' else s
  | EmptyString => s
  end.

(** The exponent part [e+dd], 0 when there is none. *)
Definition read_exponent (s : string) : Z :=
  match s with
  | String c s' =>
      if (c =? "e")%char || (c =? "E")%char then
        let (neg, s'') := read_sign s' in
        let '(v, _, _) := read_digits s'' in
        if neg then - v else v
      else 0
  | EmptyString => 0
  end.

(** [parseFloat] on a string: leading white space, then the longest prefix
    that is a decimal literal or a signed [Infinity]. *)
Definition parseFloat (s : string) : number :=
  let (neg, s1) := read_sign (trim_left s) in
  if prefix "Infinity" s1 then S754_infinity neg else
  let '(i, ni, s2) := read_digits s1 in
  let '(f, nf, s3) := match s2 with
                      | String "." s' => read_digits s'
                      | _ => (0, O, s2)
                      end in
  if (ni + nf =? 0)%nat then Num.NaN
  else scaled neg (i * 10 ^ Z.of_nat nf + f) (read_exponent s3 - Z.of_nat nf).

(** [m * 2^e] with the fewest decimals, from [k] on, that read back as the
    same double. *)
Fixpoint shortest (fuel : nat) (k : nat) (m : positive) (e : Z) : string :=
  let n := Decimal.nearest m e k in
  match fuel with
  | O => Decimal.print_fixed n k
  | S fuel' =>
      if SFeqb (scaled false n (- Z.of_nat k)) (S754_finite false m e)
      then Decimal.print_fixed n k
      else shortest fuel' (S k) m e
  end.

(** [x.toString()] where JavaScript prints decimal notation without an
    exponent and all integer digits are significant:
    [1e-6 <= |x| < 2^53], and 0, NaN and the infinities. *)
Definition toString (x : number) : string :=
  match x with
  | S754_nan => "NaN"
  | S754_infinity s => if s then "-Infinity" else "Infinity"
  | S754_zero _ => "0"
  | S754_finite s m e => (if s then "-" else "") ++ shortest 24 0 m e
  end.

Fixpoint strip_zeros_rev (s : list ascii) : list ascii :=
  match s with
  | "0"%char :: s' => strip_zeros_rev s'
  | _ => s
  end.

(** Trailing zeros removed, one digit kept. *)
Definition strip_zeros (s : string) : string :=
  match rev (strip_zeros_rev (rev (list_ascii_of_string s))) with
  | [] => "0"
  | l => string_of_list_ascii l
  end.

(** [ethers.formatEther]: 18 decimals, trailing zeros dropped. *)
Definition formatEther (wei : Z) : string :=
  let a := Z.abs wei in
  (if (wei <? 0)%Z then "-" else "")
    ++ Decimal.print_digits (a / 10 ^ 18) ++ "."
    ++ strip_zeros (Decimal.pad 18 (a mod 10 ^ 18)).

(** [ethers.parseEther]: an optional [-], digits, an optional point and
    digits; at most 18 decimals that are not zeros. *)
Definition parseEther (s : string) : Exc Z :=
  let (neg, s1) := match s with
                   | String "-" s' => (true, s')
                   | _ => (false, s)
                   end in
  let '(i, ni, s2) := read_digits s1 in
  let '(f, nf, s3) := match s2 with
                      | String "." s' => read_digits s'
                      | _ => (0, O, s2)
                      end in
  if negb (s3 =? "") || (ni + nf =? 0)%nat then
    inl "invalid FixedNumber string value"
  else
    let scale := 10 ^ (18 - Z.of_nat nf) in
    let excess := 10 ^ (Z.of_nat nf - 18) in
    if (nf <=? 18)%nat then
      inr ((if neg then -1 else 1) * (i * 10 ^ 18 + f * scale))
    else if (f mod excess =? 0)%Z then
      inr ((if neg then -1 else 1) * (i * 10 ^ 18 + f / excess))
    else inl "too many decimals for format".

End Ref.

Module Scenario.

(** A node that is up, for a wallet whose balance query yields [balance]
    (in wei, or an error). *)
Definition world (key : option string) (balance : Exc Z) : World :=
  {| PRIVATE_KEY := key;
     parseFloatString := Ref.parseFloat;
     Number_toString := Ref.toString;
     formatEther := Ref.formatEther;
     parseEther := Ref.parseEther;
     walletAddress := fun _ => inr "0xF39f";
     signTransaction := fun _ _ => inr "0x02f8";
     getBlockNumber := fun _ => inr 19000000;
     getBalance := fun _ _ => balance;
     getTransactionCount := fun _ _ => inr (Num.of_Z 7);
     getFeeData := fun _ => inr (Some 30000000000);
     broadcastTransaction := fun _ _ => inr "0xabcd";
     wait := fun _ _ => inr (mkReceipt (Num.of_Z 19000001) 21000) |}.

Definition key : option string := Some "0x59c6".

Definition ether : Z := 10 ^ 18.

(** The endpoint the bootstrap settles on, and the wallet it builds. *)
Definition rpc : Provider := "https://ethereum-rpc.publicnode.com".
Definition signer : Wallet := mkWallet "0xF39f" rpc.

(** A wallet holding 1 ether, one holding 0.001 ether, a process without
    a private key, and a node that fails the balance query. *)
Definition funded : World := world key (inr ether).
Definition poor : World := world key (inr (10 ^ 15)).
Definition keyless : World := world None (inr ether).
Definition failing : World := world key (inl "could not coalesce error").

(** The process before any bootstrap. *)
Definition fresh : State := mkState None None [].

(** What [/convert] answers in a fresh process, and the state it leaves. *)
Definition answer (W : World) (b : Body) : Response :=
  match fst (convert W b fresh) with
  | inr r => r
  | inl msg => failure msg
  end.

Definition final (W : World) (b : Body) : State := snd (convert W b fresh).

(** A body with an [amount] only. *)
Definition pay (v : value) : Body :=
  mkBody v Undefined Undefined Undefined Undefined.

(** The process once bootstrapped. *)
Definition running : State := mkState (Some rpc) (Some signer) [].

(** Both amount fields and two destination fields, all truthy. *)
Definition doubled : Body :=
  mkBody (Num (Num.of_Z 5)) (Num (Num.of_Z 3)) (Str "0xaaa") (Str "0xbbb")
         Undefined.

(** Both amount fields and two destination fields, the first of each
    present but falsy. *)
Definition shadowed : Body :=
  mkBody (Num (Num.of_Z 5)) (Num Num.zero) (Str "") (Str "0xabc") Undefined.

End Scenario.

(* ================================================================== *)
(** ** Endpoint selection and further observations *)

(** A round of [initProvider] on [rpc] reaches [return true]: the probe
    answers, and the wallet, when a key is configured, can be built. *)
Definition usable (W : World) (rpc : Provider) : bool :=
  match getBlockNumber W rpc with
  | inl _ => false
  | inr _ =>
      match configuredKey W with
      | Some k => match walletAddress W k with inl _ => false | inr _ => true end
      | None => true
      end
  end.

(** The endpoints of a list up to, and with, the first usable one. *)
Fixpoint tried (W : World) (rpcs : list Provider) : list Provider :=
  match rpcs with
  | [] => []
  | rpc :: rest => if usable W rpc then [rpc] else rpc :: tried W rest
  end.

(** The wallet a successful round on [rpc] leaves, [old] being the one
    before. *)
Definition walletAfter (W : World) (rpc : Provider) (old : option Wallet)
  : option Wallet :=
  match configuredKey W with
  | Some k =>
      match walletAddress W k with
      | inr a => Some (mkWallet a rpc)
      | inl _ => old
      end
  | None => old
  end.

(** Strictly above zero. *)
Definition above_zero (x : number) : bool :=
  match x with
  | S754_infinity false | S754_finite false _ _ => true
  | _ => false
  end.

(** The broadcasts of a trace: the provider and the signed transaction. *)
Fixpoint broadcasts (l : list Event) : list (Provider * string) :=
  match l with
  | EvBroadcast p signedTx :: l' => (p, signedTx) :: broadcasts l'
  | _ :: l' => broadcasts l'
  | [] => []
  end.

(** The status codes the handlers of [server.js] set. *)
Definition is_status (c : Z) : bool := ((c =? 200) || (c =? 400) || (c =? 500))%Z.

(** The ways through [/convert] once both guards are passed: the answer,
    and the calls made from the nonce query on. *)
Inductive Sending (W : World) (w : Wallet) (b : Body) (p : Provider)
  : Response -> list Event -> Prop :=
| NonceFailed msg :
    getTransactionCount W p (address w) = inl msg ->
    Sending W w b p (failure msg) [EvGetTransactionCount p (address w)]
| FeeFailed nonce msg :
    getTransactionCount W p (address w) = inr nonce ->
    getFeeData W p = inl msg ->
    Sending W w b p (failure msg)
      [EvGetTransactionCount p (address w); EvGetFeeData p]
| WeiFailed nonce gasPrice msg :
    getTransactionCount W p (address w) = inr nonce ->
    getFeeData W p = inr gasPrice ->
    parseEther W (Number_toString W (ethAmount W b)) = inl msg ->
    Sending W w b p (failure msg)
      [EvGetTransactionCount p (address w); EvGetFeeData p]
| SignFailed nonce gasPrice v msg :
    getTransactionCount W p (address w) = inr nonce ->
    getFeeData W p = inr gasPrice ->
    parseEther W (Number_toString W (ethAmount W b)) = inr v ->
    signTransaction W w (buildTx b v nonce gasPrice) = inl msg ->
    Sending W w b p (failure msg)
      [EvGetTransactionCount p (address w); EvGetFeeData p;
       EvSign w (buildTx b v nonce gasPrice)]
| SendFailed nonce gasPrice v signedTx msg :
    getTransactionCount W p (address w) = inr nonce ->
    getFeeData W p = inr gasPrice ->
    parseEther W (Number_toString W (ethAmount W b)) = inr v ->
    signTransaction W w (buildTx b v nonce gasPrice) = inr signedTx ->
    broadcastTransaction W p signedTx = inl msg ->
    Sending W w b p (failure msg)
      [EvGetTransactionCount p (address w); EvGetFeeData p;
       EvSign w (buildTx b v nonce gasPrice); EvBroadcast p signedTx]
| WaitFailed nonce gasPrice v signedTx h msg :
    getTransactionCount W p (address w) = inr nonce ->
    getFeeData W p = inr gasPrice ->
    parseEther W (Number_toString W (ethAmount W b)) = inr v ->
    signTransaction W w (buildTx b v nonce gasPrice) = inr signedTx ->
    broadcastTransaction W p signedTx = inr h ->
    wait W p h = inl msg ->
    Sending W w b p (failure msg)
      [EvGetTransactionCount p (address w); EvGetFeeData p;
       EvSign w (buildTx b v nonce gasPrice); EvBroadcast p signedTx;
       EvWait p h]
| Sent nonce gasPrice v signedTx h receipt :
    getTransactionCount W p (address w) = inr nonce ->
    getFeeData W p = inr gasPrice ->
    parseEther W (Number_toString W (ethAmount W b)) = inr v ->
    signTransaction W w (buildTx b v nonce gasPrice) = inr signedTx ->
    broadcastTransaction W p signedTx = inr h ->
    wait W p h = inr receipt ->
    Sending W w b p (converted W h w b receipt)
      [EvGetTransactionCount p (address w); EvGetFeeData p;
       EvSign w (buildTx b v nonce gasPrice); EvBroadcast p signedTx;
       EvWait p h].

(** The ways through [/convert] once the wallet is there: the answer, and
    the calls made from the balance query on. *)
Inductive Outcome (W : World) (w : Wallet) (b : Body) (p : Provider)
  : Response -> list Event -> Prop :=
| BalanceFailed msg :
    getBalance W p (address w) = inl msg ->
    Outcome W w b p (failure msg) [EvGetBalance p (address w)]
| NeedGas bal :
    getBalance W p (address w) = inr bal ->
    Num.ltb (balanceETH W bal) lit_0_002 = true ->
    Outcome W w b p (needGas (balanceETH W bal)) [EvGetBalance p (address w)]
| Insufficient bal :
    getBalance W p (address w) = inr bal ->
    Num.ltb (balanceETH W bal) lit_0_002 = false ->
    Num.leb (maxTransfer W b bal) Num.zero = true ->
    Outcome W w b p (insufficient (balanceETH W bal)) [EvGetBalance p (address w)]
| Proceeded bal r evs :
    getBalance W p (address w) = inr bal ->
    Num.ltb (balanceETH W bal) lit_0_002 = false ->
    Num.leb (maxTransfer W b bal) Num.zero = false ->
    Sending W w b p r evs ->
    Outcome W w b p r (EvGetBalance p (address w) :: evs).

Module Cases.

(** A wallet of 1 ether behind a node whose probe, key derivation,
    broadcast and confirmation are given. *)
Definition node (key : option string) (probe : Provider -> Exc Z)
    (derive : Exc string) (send : Exc string) (confirm : Exc Receipt) : World :=
  {| PRIVATE_KEY := key;
     parseFloatString := Ref.parseFloat;
     Number_toString := Ref.toString;
     formatEther := Ref.formatEther;
     parseEther := Ref.parseEther;
     walletAddress := fun _ => derive;
     signTransaction := fun _ _ => inr "0x02f8";
     getBlockNumber := probe;
     getBalance := fun _ _ => inr Scenario.ether;
     getTransactionCount := fun _ _ => inr (Num.of_Z 7);
     getFeeData := fun _ => inr (Some 30000000000);
     broadcastTransaction := fun _ _ => send;
     wait := fun _ _ => confirm |}.

Definition up : Provider -> Exc Z := fun _ => inr 19000000.

Definition receipt : Receipt := mkReceipt (Num.of_Z 19000001) 21000.

(** No endpoint answers. *)
Definition down : World :=
  node Scenario.key (fun _ => inl "timeout") (inr "0xF39f") (inr "0xabcd")
       (inr receipt).

(** The first two endpoints are dead. *)
Definition third_up : World :=
  node Scenario.key
       (fun p => if (p =? "https://rpc.ankr.com/eth") then inr 19000000
                 else inl "timeout")
       (inr "0xF39f") (inr "0xabcd") (inr receipt).

(** A private key that ethers refuses. *)
Definition bad_key : World :=
  node (Some "xyz") up (inl "invalid private key") (inr "0xabcd") (inr receipt).

(** The node refuses the transaction. *)
Definition rejecting : World :=
  node Scenario.key up (inr "0xF39f") (inl "insufficient funds") (inr receipt).

(** A wallet holding exactly 0.002 ether. *)
Definition at_reserve : World := Scenario.world Scenario.key (inr (2 * 10 ^ 15)).

(** The transaction is accepted, the wait for its receipt fails. *)
Definition stalled : World :=
  node Scenario.key up (inr "0xF39f") (inr "0xabcd") (inl "timeout").

End Cases.

(* ================================================================== *)
(** ** Facts on numbers *)

Module NumFacts.

(** The two literals are the doubles nearest to 1/100 and 2/1000: twice
    the distance to the decimal is at most one unit in the last place. *)
Lemma lit_0_01_nearest :
  lit_0_01 = S754_finite false 5764607523034235 (-59) /\
  2 * Z.abs (5764607523034235 * 100 - 1 * 2 ^ 59) <= 100.
Proof. split; [reflexivity | vm_compute; discriminate]. Qed.

Lemma lit_0_002_nearest :
  lit_0_002 = S754_finite false 4611686018427388 (-61) /\
  2 * Z.abs (4611686018427388 * 1000 - 2 * 2 ^ 61) <= 1000.
Proof. split; [reflexivity | vm_compute; discriminate]. Qed.

Lemma ltb_zero_negative (x : number) :
  Num.ltb x Num.zero = true <-> Num.negative x = true.
Proof. destruct x as [[]|[]| |[] m e]; cbn; intuition congruence. Qed.

Lemma negative_leb_zero (x : number) :
  Num.negative x = true -> Num.leb x Num.zero = true.
Proof. destruct x as [[]|[]| |[] m e]; cbn; congruence. Qed.

Lemma negative_truthy (x : number) :
  Num.negative x = true -> Num.truthy x = true.
Proof. destruct x as [[]|[]| |[] m e]; cbn; congruence. Qed.

Lemma min_negative (x y : number) :
  Num.negative x = true -> Num.is_nan y = false ->
  Num.negative (Num.min x y) = true.
Proof.
  unfold Num.min.
  destruct x as [[]|[]| |[] m e]; cbn; try discriminate;
    destruct y as [[]|[]| |[] m' e']; cbn; try discriminate; auto.
  destruct (e ?= e')%Z; cbn; auto.
  destruct (Pos.compare_cont Eq m m'); cbn; auto.
Qed.

(** Comparing the other way round. *)
Lemma compare_swap (x y : number) :
  SFcompare y x = option_map CompOpp (SFcompare x y).
Proof.
  destruct x as [[]|[]| |[] m e], y as [[]|[]| |[] m' e']; cbn; try reflexivity;
    rewrite (Z.compare_antisym e' e);
    pose proof (Pos.compare_cont_antisym m' m Eq) as H; cbn in H;
    destruct (e' ?= e)%Z; cbn; try reflexivity;
    rewrite <- H; destruct (Pos.compare_cont Eq m' m); reflexivity.
Qed.

Lemma geb_not_ltb (x y : number) :
  Num.geb x y = true -> Num.ltb x y = false.
Proof.
  unfold Num.geb, Num.ltb, SFleb, SFltb. rewrite (compare_swap y x).
  destruct (SFcompare y x) as [[]|]; cbn; congruence.
Qed.

Lemma geb_not_nan (x y : number) :
  Num.geb x y = true -> Num.is_nan x = false.
Proof. destruct x, y; cbn; congruence. Qed.

Lemma geb_not_nan_r (x y : number) :
  Num.geb x y = true -> Num.is_nan y = false.
Proof. destruct x, y; cbn; congruence. Qed.

Lemma add_reserve_not_nan (x : number) :
  Num.is_nan (Num.add lit_0_002 x) = false -> Num.is_nan x = false.
Proof. destruct x; cbn; congruence. Qed.

(** *** Rounding never yields NaN *)

Lemma shr_1_nonneg (mrs : shr_record) :
  0 <= shr_m mrs -> 0 <= shr_m (shr_1 mrs).
Proof.
  destruct mrs as [m r s]. destruct m as [|p|p]; cbn.
  - lia.
  - destruct p; cbn; lia.
  - lia.
Qed.

Lemma iter_shr_1_nonneg (p : positive) :
  forall mrs, 0 <= shr_m mrs -> 0 <= shr_m (iter_pos shr_1 p mrs).
Proof.
  induction p as [p IH|p IH|]; cbn; intros mrs H.
  - apply IH, IH, shr_1_nonneg, H.
  - apply IH, IH, H.
  - apply shr_1_nonneg, H.
Qed.

Lemma shr_fexp_nonneg (m e : Z) (l : location) :
  0 <= m -> 0 <= shr_m (fst (shr_fexp Num.prec Num.emax m e l)).
Proof.
  intros H. unfold shr_fexp, shr.
  assert (H0 : 0 <= shr_m (shr_record_of_loc m l))
    by (destruct l as [|[]]; cbn; exact H).
  destruct (fexp _ _ _ - e); cbn; auto using iter_shr_1_nonneg.
Qed.

Lemma round_nearest_even_nonneg (m : Z) (l : location) :
  0 <= m -> 0 <= round_nearest_even m l.
Proof.
  intros H. destruct l as [|[]]; cbn; try lia.
  destruct (Z.even m); lia.
Qed.

Lemma binary_round_aux_not_nan (sx : bool) (mx ex : Z) (lx : location) :
  0 <= mx ->
  Num.is_nan (binary_round_aux Num.prec Num.emax sx mx ex lx) = false.
Proof.
  intros H. unfold binary_round_aux.
  pose proof (shr_fexp_nonneg mx ex lx H) as H1.
  destruct (shr_fexp Num.prec Num.emax mx ex lx) as [mrs' e']. cbn in H1.
  pose proof (shr_fexp_nonneg _ e' loc_Exact
                (round_nearest_even_nonneg _ (loc_of_shr_record mrs') H1)) as H2.
  destruct (shr_fexp Num.prec Num.emax _ e' loc_Exact) as [mrs'' e'']. cbn in H2.
  destruct (shr_m mrs'') as [|q|q].
  - reflexivity.
  - destruct (e'' <=? _)%Z; reflexivity.
  - lia.
Qed.

Lemma binary_normalize_not_nan (m e : Z) (sz : bool) :
  Num.is_nan (binary_normalize Num.prec Num.emax m e sz) = false.
Proof.
  destruct m as [|p|p]; cbn -[binary_round_aux]; try reflexivity;
    unfold binary_round;
    destruct (shl_align _ _ _) as [mz ez];
    apply binary_round_aux_not_nan; lia.
Qed.

(** [x - 0.002] is NaN only when [x] is. *)
Lemma sub_reserve_not_nan (x : number) :
  Num.is_nan x = false -> Num.is_nan (Num.sub x lit_0_002) = false.
Proof.
  intros H. destruct lit_0_002_nearest as [-> _].
  destruct x as [s|s| |s m e]; try discriminate; try reflexivity.
  unfold Num.sub, SFsub. apply binary_normalize_not_nan.
Qed.

End NumFacts.

(* ================================================================== *)
(** ** The bootstrap *)

Local Open Scope list_scope.

Ltac run :=
  cbv [bind ret throw call emit withProvider getProvider getWallet
       tryCatch setProvider setWallet] in *;
  cbn [provider wallet trace fst snd] in *.

Section Bootstrap.

Variable W : World.

(** One round probes its endpoint, leaves [provider] set, and may throw. *)
Lemma connect_spec (rpc : string) (s : State) :
  exists r s', connect W rpc s = (r, s') /\
    provider s' = Some rpc /\
    trace s' = trace s ++ [EvGetBlockNumber rpc].
Proof.
  unfold connect. run.
  destruct (getBlockNumber W rpc) as [err|n]; [eauto|].
  destruct (configuredKey W) as [k|]; [|eauto].
  destruct (walletAddress W k) as [err|a]; eauto.
Qed.

(** [initProvider] never throws; all it does outside is probing. *)
Lemma initProvider_from_spec (rpcs : list string) :
  forall s, exists ok s' new,
    initProvider_from W rpcs s = (inr ok, s') /\
    trace s' = trace s ++ new /\
    forallb is_probe new = true /\
    (rpcs <> [] \/ provider s <> None -> provider s' <> None).
Proof.
  induction rpcs as [|rpc rest IH]; intros s; cbn [initProvider_from].
  - exists false, s, []. rewrite app_nil_r. repeat split. tauto.
  - destruct (connect_spec rpc s) as (r & s1 & E & Hp & Ht).
    unfold tryCatch. rewrite E. destruct r as [e|ok].
    + destruct (IH s1) as (ok & s' & new & E' & Ht' & Hnew & Hp').
      exists ok, s', (EvGetBlockNumber rpc :: new). rewrite E'.
      repeat split.
      * rewrite Ht', Ht, <- app_assoc. reflexivity.
      * exact Hnew.
      * intros _. apply Hp'. right. congruence.
    + exists ok, s1, [EvGetBlockNumber rpc]. repeat split; congruence.
Qed.

Lemma bootstrap_spec (s : State) :
  bootstrap W s = (inr tt, booted W s) /\
  provider (booted W s) <> None /\
  exists new, trace (booted W s) = trace s ++ new /\
              forallb is_probe new = true.
Proof.
  unfold booted, bootstrap.
  destruct (initProvider_from_spec RPC_URLS s)
    as (ok & s' & new & E & Ht & Hnew & Hp).
  assert (Hinit : (initProvider W ;; ret tt)%monad s = (inr tt, s'))
    by (unfold initProvider; run; rewrite E; reflexivity).
  assert (Hp' : provider s' <> None) by (apply Hp; left; discriminate).
  destruct (provider s) as [p|] eqn:Ep; [destruct (wallet s) as [w|] eqn:Ew|];
    try (rewrite Hinit; cbn; split; [reflexivity|split; [exact Hp'|eauto]]).
  cbn. split; [reflexivity|]. split; [congruence|].
  exists []. rewrite app_nil_r. split; reflexivity.
Qed.

(** [/convert] after the bootstrap: the configuration error, or the
    transfer under the handler's [try]. *)
Lemma convert_unfold (b : Body) (s : State) :
  convert W b s =
  match wallet (booted W s) with
  | None => (inr notConfigured, booted W s)
  | Some w => tryCatch (transfer W w b) (fun msg => ret (failure msg)) (booted W s)
  end.
Proof.
  unfold convert. destruct (bootstrap_spec s) as (E & _).
  run. rewrite E. destruct (wallet (booted W s)); reflexivity.
Qed.

(** A probe neither reads the balance nor moves funds. *)
Lemma probes_are_quiet (l : list Event) :
  forallb is_probe l = true ->
  forallb (fun e => negb (reads_balance e || moves_funds e)) l = true.
Proof.
  induction l as [|e l IH]; cbn; [reflexivity|].
  intros H. apply andb_true_iff in H as [He Hl].
  rewrite (IH Hl). destruct e; cbn in *; congruence.
Qed.

Lemma probes_move_nothing (l : list Event) :
  forallb is_probe l = true ->
  forallb (fun e => negb (moves_funds e)) l = true.
Proof.
  induction l as [|e l IH]; cbn; [reflexivity|].
  intros H. apply andb_true_iff in H as [He Hl].
  rewrite (IH Hl). destruct e; cbn in *; congruence.
Qed.

Lemma probes_sign_nothing (l : list Event) :
  forallb is_probe l = true -> signed l = [].
Proof.
  induction l as [|e l IH]; cbn; [reflexivity|].
  intros H. apply andb_true_iff in H as [He Hl].
  destruct e; cbn in *; try discriminate. auto.
Qed.

End Bootstrap.

(* ================================================================== *)
(** ** The transfer endpoint *)

Section Transfer.

Variable W : World.

Lemma signed_app (l1 l2 : list Event) :
  signed (l1 ++ l2) = signed l1 ++ signed l2.
Proof.
  induction l1 as [|e l1 IH]; cbn; [reflexivity|].
  destruct e; cbn; congruence.
Qed.

(** A parsed amount that is neither NaN nor zero is the effective one. *)
Lemma ethAmount_truthy (b : Body) :
  Num.truthy (parseFloat W (amountETH b || amount b)%js) = true ->
  ethAmount W b = parseFloat W (amountETH b || amount b)%js.
Proof. unfold ethAmount, Num.or. intros ->. reflexivity. Qed.

Lemma ethAmount_falsy (b : Body) :
  Num.truthy (parseFloat W (amountETH b || amount b)%js) = false ->
  ethAmount W b = lit_0_01.
Proof. unfold ethAmount, Num.or. intros ->. reflexivity. Qed.

(** With a negative effective amount and a balance that is a number, the
    second guard of [/convert] fires. *)
Lemma maxTransfer_negative (b : Body) (bal : Z) :
  Num.negative (ethAmount W b) = true ->
  Num.is_nan (balanceETH W bal) = false ->
  Num.leb (maxTransfer W b bal) Num.zero = true.
Proof.
  intros Hneg Hbal. unfold maxTransfer.
  apply NumFacts.negative_leb_zero, NumFacts.min_negative; [exact Hneg|].
  apply NumFacts.sub_reserve_not_nan, Hbal.
Qed.

(** Whatever [/convert] answers, a success reports the effective amount,
    and every transaction it signed carries the effective amount in wei. *)
Lemma convert_reports_ethAmount (b : Body) (s : State) (r : Response) (s' : State) :
  convert W b s = (inr r, s') ->
  (status r = OK -> field "amount" r = Some (Num (ethAmount W b))) /\
  exists new, trace s' = trace s ++ new /\
    Forall (fun tx => parseEther W (Number_toString W (ethAmount W b))
                      = inr (tx_value tx)) (signed new).
Proof.
  rewrite convert_unfold.
  destruct (bootstrap_spec W s) as (_ & _ & probes & Ht & Hprobes).
  pose proof (probes_sign_nothing probes Hprobes) as Hsig.
  destruct (booted W s) as [op ow tr]. cbn [provider wallet trace] in *.
  assert (Hdone : forall (r0 : Response) (evs : list Event),
            status r0 <> OK -> signed evs = [] ->
            (inr r0 : Exc Response, mkState op ow (tr ++ evs)) = (inr r, s') ->
            (status r = OK -> field "amount" r = Some (Num (ethAmount W b))) /\
            exists new, trace s' = trace s ++ new /\
              Forall (fun tx => parseEther W (Number_toString W (ethAmount W b))
                                = inr (tx_value tx)) (signed new)).
  { intros r0 evs Hr0 Hevs [= <- <-]. split; [tauto|].
    exists (probes ++ evs). cbn [trace].
    rewrite Ht, app_assoc, signed_app, Hsig, Hevs. auto. }
  destruct ow as [w|].
  2:{ rewrite <- (app_nil_r tr). apply Hdone; [discriminate|reflexivity]. }
  unfold transfer. run.
  destruct op as [p|].
  2:{ rewrite <- (app_nil_r tr). apply Hdone; [discriminate|reflexivity]. }
  destruct (getBalance W p (address w)) as [e|bal];
    [apply Hdone; [discriminate|reflexivity]|].
  destruct (Num.ltb (balanceETH W bal) lit_0_002);
    [apply Hdone; [discriminate|reflexivity]|].
  destruct (Num.leb (maxTransfer W b bal) Num.zero);
    [apply Hdone; [discriminate|reflexivity]|].
  cbn [provider wallet trace].
  destruct (getTransactionCount W p (address w)) as [e|nonce];
    [rewrite <- app_assoc; apply Hdone; [discriminate|reflexivity]|].
  cbn [provider wallet trace].
  destruct (getFeeData W p) as [e|gasPrice];
    [rewrite <- !app_assoc; apply Hdone; [discriminate|reflexivity]|].
  destruct (parseEther W (Number_toString W (ethAmount W b))) as [e|v] eqn:Hv;
    [rewrite <- !app_assoc; apply Hdone; [discriminate|reflexivity]|].
  assert (Hsent : forall (r0 : Response) (evs : list Event),
            (status r0 = OK -> field "amount" r0 = Some (Num (ethAmount W b))) ->
            signed evs = [buildTx b v nonce gasPrice] ->
            (inr r0 : Exc Response, mkState (Some p) (Some w) (tr ++ evs))
              = (inr r, s') ->
            (status r = OK -> field "amount" r = Some (Num (ethAmount W b))) /\
            exists new, trace s' = trace s ++ new /\
              Forall (fun tx => @inr string Z v = inr (tx_value tx)) (signed new)).
  { intros r0 evs Hr0 Hevs [= <- <-]. split; [exact Hr0|].
    exists (probes ++ evs). cbn [trace].
    rewrite Ht, app_assoc, signed_app, Hsig, Hevs. cbn. auto. }
  destruct (signTransaction W w (buildTx b v nonce gasPrice)) as [e|signedTx];
    [rewrite <- !app_assoc; apply Hsent; [discriminate|reflexivity]|].
  cbn [provider wallet trace].
  destruct (broadcastTransaction W p signedTx) as [e|h];
    [rewrite <- !app_assoc; apply Hsent; [discriminate|reflexivity]|].
  cbn [provider wallet trace via hash].
  destruct (wait W p h) as [e|receipt];
    rewrite <- !app_assoc; apply Hsent; try discriminate; reflexivity.
Qed.

(** The path on which every call succeeds: the calls made, in order, and
    the answer. *)
Lemma convert_succeeds
    (b : Body) (s : State) (p : Provider) (w : Wallet) (bal : Z)
    (nonce : number) (gasPrice : option Z) (v : Z) (signedTx h : string)
    (receipt : Receipt) :
  provider (booted W s) = Some p ->
  wallet (booted W s) = Some w ->
  getBalance W p (address w) = inr bal ->
  Num.ltb (balanceETH W bal) lit_0_002 = false ->
  Num.leb (maxTransfer W b bal) Num.zero = false ->
  getTransactionCount W p (address w) = inr nonce ->
  getFeeData W p = inr gasPrice ->
  parseEther W (Number_toString W (ethAmount W b)) = inr v ->
  signTransaction W w (buildTx b v nonce gasPrice) = inr signedTx ->
  broadcastTransaction W p signedTx = inr h ->
  wait W p h = inr receipt ->
  convert W b s =
    (inr (converted W h w b receipt),
     mkState (Some p) (Some w)
       (trace (booted W s) ++
          [ EvGetBalance p (address w);
            EvGetTransactionCount p (address w);
            EvGetFeeData p;
            EvSign w (buildTx b v nonce gasPrice);
            EvBroadcast p signedTx;
            EvWait p h ])).
Proof.
  intros Hp Hw Hbal Hlt Hle Hnonce Hfee Hv Hsign Hsend Hwait.
  rewrite convert_unfold, Hw. unfold transfer.
  destruct (booted W s) as [op ow tr]. cbn [provider wallet trace] in *.
  subst op ow. run.
  rewrite Hbal, Hlt, Hle. cbn [provider wallet trace].
  rewrite Hnonce. cbn [provider wallet trace].
  rewrite Hfee, Hv, Hsign. cbn [provider wallet trace].
  rewrite Hsend. cbn [provider wallet trace via hash].
  rewrite Hwait, <- !app_assoc. reflexivity.
Qed.

End Transfer.

(* ================================================================== *)
(** ** Guards of the transfer endpoint *)

(** C3: when the wallet's balance, in ether, is strictly below 0.002,
    [/convert] answers 400 with [{error: 'Need 0.002 ETH for gas', balance}]
    whatever the body is, and nothing was signed or broadcast. *)
Theorem need_gas_below_reserve
    (W : World) (b : Body) (s : State) (p : Provider) (w : Wallet) (bal : Z) :
  provider (booted W s) = Some p ->
  wallet (booted W s) = Some w ->
  getBalance W p (address w) = inr bal ->
  Num.ltb (balanceETH W bal) lit_0_002 = true ->
  exists s' new,
    convert W b s =
      (inr (mkResponse 400 [ ("error", Str "Need 0.002 ETH for gas");
                             ("balance", Num (balanceETH W bal)) ]), s') /\
    trace s' = trace s ++ new /\
    forallb (fun e => negb (moves_funds e)) new = true.
Proof.
  intros Hp Hw Hbal Hlt. rewrite convert_unfold, Hw.
  destruct (bootstrap_spec W s) as (_ & _ & probes & Ht & Hprobes).
  unfold transfer. run. rewrite Hp, Hbal, Hlt.
  eexists. exists (probes ++ [EvGetBalance p (address w)]).
  split; [reflexivity|]. cbn [trace]. split.
  - rewrite Ht, app_assoc. reflexivity.
  - rewrite forallb_app, (probes_move_nothing probes Hprobes). reflexivity.
Qed.

(** C5: when [wallet] is still unset after the bootstrap that opens the
    handler, [/convert] answers 500 with [{error: 'Wallet not configured'}];
    the calls made were liveness probes only: no balance query, no
    signature, no broadcast. *)
Theorem wallet_not_configured (W : World) (b : Body) (s : State) :
  wallet (booted W s) = None ->
  exists s' new,
    convert W b s =
      (inr (mkResponse 500 [("error", Str "Wallet not configured")]), s') /\
    trace s' = trace s ++ new /\
    forallb (fun e => negb (reads_balance e || moves_funds e)) new = true.
Proof.
  intros Hw. rewrite convert_unfold, Hw.
  destruct (bootstrap_spec W s) as (_ & _ & probes & Ht & Hprobes).
  exists (booted W s), probes. split; [reflexivity|]. split; [exact Ht|].
  apply probes_are_quiet, Hprobes.
Qed.

(** C10: when the amount field parses to a strictly negative number and the
    balance is at least 0.002, [/convert] answers 400 with
    [{error: 'Insufficient after gas', balance}], and nothing was signed or
    broadcast. *)
Theorem negative_amount_refused
    (W : World) (b : Body) (s : State) (p : Provider) (w : Wallet) (bal : Z) :
  provider (booted W s) = Some p ->
  wallet (booted W s) = Some w ->
  getBalance W p (address w) = inr bal ->
  Num.ltb (parseFloat W (amountETH b || amount b)%js) Num.zero = true ->
  Num.geb (balanceETH W bal) lit_0_002 = true ->
  exists s' new,
    convert W b s =
      (inr (mkResponse 400 [ ("error", Str "Insufficient after gas");
                             ("balance", Num (balanceETH W bal)) ]), s') /\
    trace s' = trace s ++ new /\
    forallb (fun e => negb (moves_funds e)) new = true.
Proof.
  intros Hp Hw Hbal Hneg Hge. rewrite convert_unfold, Hw.
  destruct (bootstrap_spec W s) as (_ & _ & probes & Ht & Hprobes).
  apply NumFacts.ltb_zero_negative in Hneg.
  assert (Hguard : Num.leb (maxTransfer W b bal) Num.zero = true).
  { apply maxTransfer_negative.
    - rewrite ethAmount_truthy; [exact Hneg|].
      apply NumFacts.negative_truthy, Hneg.
    - apply (NumFacts.geb_not_nan _ _ Hge). }
  unfold transfer. run.
  rewrite Hp, Hbal, (NumFacts.geb_not_ltb _ _ Hge), Hguard.
  eexists. exists (probes ++ [EvGetBalance p (address w)]).
  split; [reflexivity|]. cbn [trace]. split.
  - rewrite Ht, app_assoc. reflexivity.
  - rewrite forallb_app, (probes_move_nothing probes Hprobes). reflexivity.
Qed.

(* ================================================================== *)
(** ** The amount that is sent *)

(** C2, amended: when the parsed amount [x] is not zero and the balance is at
    least [0.002 + x], every transaction [/convert] signs carries
    [parseEther(x.toString())], and a success reports [amount: x].
    (A parsed amount of 0 is replaced by the default 0.01.) *)
Theorem requested_amount_sent
    (W : World) (b : Body) (s : State) (p : Provider) (w : Wallet) (bal : Z)
    (x : number) (r : Response) (s' : State) :
  provider (booted W s) = Some p ->
  wallet (booted W s) = Some w ->
  getBalance W p (address w) = inr bal ->
  parseFloat W (amountETH b || amount b)%js = x ->
  Num.is_zero x = false ->
  Num.geb (balanceETH W bal) (Num.add lit_0_002 x) = true ->
  convert W b s = (inr r, s') ->
  (status r = OK -> field "amount" r = Some (Num x)) /\
  exists new, trace s' = trace s ++ new /\
    Forall (fun tx => parseEther W (Number_toString W x) = inr (tx_value tx))
           (signed new).
Proof.
  intros _ _ _ Hx Hnz Hge Hrun.
  assert (Heff : ethAmount W b = x).
  { rewrite ethAmount_truthy; [exact Hx|]. rewrite Hx. unfold Num.truthy.
    rewrite Hnz, (NumFacts.add_reserve_not_nan x (NumFacts.geb_not_nan_r _ _ Hge)).
    reflexivity. }
  rewrite <- Heff. apply (convert_reports_ethAmount W b s r s' Hrun).
Qed.

(** C2 as first stated fails at [{amount: 0}] with a balance of 1 ether:
    the parsed amount is 0 and the balance covers [0.002 + 0], yet the
    transaction carries 0.01 ether and the success reports [amount: 0.01]. *)
Lemma zero_amount_sends_default :
  wallet (booted Scenario.funded Scenario.fresh) = Some Scenario.signer /\
  getBalance Scenario.funded Scenario.rpc (address Scenario.signer)
    = inr Scenario.ether /\
  parseFloat Scenario.funded
    (amountETH (Scenario.pay (Num Num.zero)) || amount (Scenario.pay (Num Num.zero)))%js
    = Num.zero /\
  Num.geb (balanceETH Scenario.funded Scenario.ether) (Num.add lit_0_002 Num.zero)
    = true /\
  convert Scenario.funded (Scenario.pay (Num Num.zero)) Scenario.fresh
    = (inr (Scenario.answer Scenario.funded (Scenario.pay (Num Num.zero))),
       Scenario.final Scenario.funded (Scenario.pay (Num Num.zero))) /\
  status (Scenario.answer Scenario.funded (Scenario.pay (Num Num.zero))) = OK /\
  field "amount" (Scenario.answer Scenario.funded (Scenario.pay (Num Num.zero)))
    = Some (Num lit_0_01) /\
  field "amount" (Scenario.answer Scenario.funded (Scenario.pay (Num Num.zero)))
    <> Some (Num Num.zero) /\
  map tx_value
      (signed (trace (Scenario.final Scenario.funded (Scenario.pay (Num Num.zero)))))
    = [10 ^ 16].
Proof. repeat split; try (vm_compute; reflexivity). vm_compute. discriminate. Qed.

(** C1, on the code: with [{amount: 2}] and a balance of 1 ether the cap
    [maxTransfer] is 0.998, but the transaction that is signed carries
    2 ether and the success reports [amount: 2]; the capped value would have
    been 998000000000000000 wei. *)
Lemma over_balance_amount_sent_uncapped :
  balanceETH Scenario.funded Scenario.ether = Num.of_Z 1 /\
  maxTransfer Scenario.funded (Scenario.pay (Num (Num.of_Z 2))) Scenario.ether
    = Num.dec 998 3 /\
  convert Scenario.funded (Scenario.pay (Num (Num.of_Z 2))) Scenario.fresh
    = (inr (Scenario.answer Scenario.funded (Scenario.pay (Num (Num.of_Z 2)))),
       Scenario.final Scenario.funded (Scenario.pay (Num (Num.of_Z 2)))) /\
  status (Scenario.answer Scenario.funded (Scenario.pay (Num (Num.of_Z 2)))) = OK /\
  field "amount" (Scenario.answer Scenario.funded (Scenario.pay (Num (Num.of_Z 2))))
    = Some (Num (Num.of_Z 2)) /\
  map tx_value
      (signed (trace (Scenario.final Scenario.funded (Scenario.pay (Num (Num.of_Z 2))))))
    = [2 * 10 ^ 18] /\
  parseEther Scenario.funded (Number_toString Scenario.funded (Num.dec 998 3))
    = inr (998 * 10 ^ 15).
Proof. repeat split; vm_compute; reflexivity. Qed.

(* ================================================================== *)
(** ** Defaults and precedence of the body fields *)

(** C4: without an amount field, or with one that does not parse, the
    effective amount is 0.01; without a destination field the destination is
    the fixed address. *)
Theorem defaults_when_absent (W : World) (b : Body) :
  ((amount b = Undefined /\ amountETH b = Undefined) \/
   Num.is_nan (parseFloat W (amountETH b || amount b)%js) = true ->
   ethAmount W b = Num.dec 1 2) /\
  (to b = Undefined -> toAddress b = Undefined -> treasury b = Undefined ->
   destination b = Str "0x4024Fd78E2AD5532FBF3ec2B3eC83870FAe45fC7").
Proof.
  split.
  - intros H. apply ethAmount_falsy.
    destruct H as [[Ha He]|Hnan].
    + rewrite Ha, He. reflexivity.
    + unfold Num.truthy. rewrite Hnan. reflexivity.
  - unfold destination. intros -> -> ->. reflexivity.
Qed.

(** C9, amended: among the fields that are truthy (not absent, [null],
    [false], 0 or the empty string) the first of [amountETH], [amount] gives
    the amount, and the first of [to], [toAddress], [treasury] gives the
    destination, before the fixed address; a falsy field is passed over. *)
Theorem truthy_field_precedence (W : World) (b : Body) :
  (truthy (amountETH b) = true ->
   ethAmount W b = Num.or (parseFloat W (amountETH b)) lit_0_01) /\
  (truthy (amountETH b) = false ->
   ethAmount W b = Num.or (parseFloat W (amount b)) lit_0_01) /\
  (truthy (to b) = true -> destination b = to b) /\
  (truthy (to b) = false -> truthy (toAddress b) = true ->
   destination b = toAddress b) /\
  (truthy (to b) = false -> truthy (toAddress b) = false ->
   truthy (treasury b) = true -> destination b = treasury b) /\
  (truthy (to b) = false -> truthy (toAddress b) = false ->
   truthy (treasury b) = false -> destination b = Str TREASURY).
Proof.
  unfold ethAmount, destination, or.
  destruct (truthy (amountETH b)) eqn:Ha, (truthy (to b)) eqn:Ht,
    (truthy (toAddress b)) eqn:Hta, (truthy (treasury b)) eqn:Htr;
    repeat split; intros; try discriminate;
    repeat (first [rewrite Ht | rewrite Hta | rewrite Htr]; cbv iota);
    reflexivity.
Qed.

(** C9 as first stated fails on the body
    [{amount: 5, amountETH: 0, to: "", toAddress: "0xabc"}]: [amountETH] and
    [to] are present, yet the amount is taken from [amount] and the
    destination from [toAddress]. *)
Lemma present_but_falsy_is_skipped :
  amountETH Scenario.shadowed <> Undefined /\
  to Scenario.shadowed <> Undefined /\
  ethAmount Scenario.funded Scenario.shadowed
    = parseFloat Scenario.funded (amount Scenario.shadowed) /\
  ethAmount Scenario.funded Scenario.shadowed
    <> Num.or (parseFloat Scenario.funded (amountETH Scenario.shadowed)) lit_0_01 /\
  destination Scenario.shadowed = toAddress Scenario.shadowed /\
  destination Scenario.shadowed <> to Scenario.shadowed.
Proof. repeat split; try discriminate. Qed.

(* ================================================================== *)
(** ** Routes *)

(** C6: a POST to an alias path is answered by [/convert] on the same body
    and state: same response, same state, same calls. *)
Theorem alias_is_convert
    (W : World) (path : string) (b : Body) (s : State) (fuel : nat) :
  In path aliases ->
  handle W (S (S fuel)) (mkRequest POST path b) s
    = handle W (S fuel) (mkRequest POST "/convert" b) s /\
  handle W (S fuel) (mkRequest POST "/convert" b) s = Some (convert W b s).
Proof.
  intros [<-|[<-|[<-|[<-|[]]]]]; split; reflexivity.
Qed.

(** C7: [/status] answers 200 with [status: 'online'] in every state and
    world, and throws nothing; when the balance cannot be read, the balance
    shown is "0.000000". *)
Theorem status_never_errors (W : World) (s : State) :
  exists r s',
    status_route W s = (inr r, s') /\
    status r = 200 /\
    field "status" r = Some (Str "online") /\
    (unreadable W s -> field "balance" r = Some (Str "0.000000")).
Proof.
  unfold status_route, readBalance, unreadable. run.
  destruct (provider s) as [p|]; [destruct (wallet s) as [w|]|].
  - destruct (getBalance W p (address w)) as [e|bal]; cbn [wallet];
      do 2 eexists; (split; [reflexivity|]); repeat split.
    intros [msg [=]].
  - do 2 eexists; (split; [reflexivity|]); repeat split.
  - do 2 eexists; (split; [reflexivity|]); repeat split.
Qed.

(** C8: [/health] answers the constant [{status: 'healthy'}] with status 200
    in every state, touches nothing, and is what the router runs for
    [GET /health] in every world. *)
Theorem health_always_healthy (W : World) (s : State) (b : Body) (fuel : nat) :
  health_route s = (inr (mkResponse 200 [("status", Str "healthy")]), s) /\
  handle W (S fuel) (mkRequest GET "/health" b) s
    = Some (inr (mkResponse 200 [("status", Str "healthy")]), s).
Proof. split; reflexivity. Qed.

(* ================================================================== *)
(** ** Worked examples *)

(** A balance of 0.001 ether: 400, [balance: 0.001]. *)
Lemma need_gas_below_reserve_witness :
  exists s' new,
    convert Scenario.poor emptyBody Scenario.fresh =
      (inr (mkResponse 400 [ ("error", Str "Need 0.002 ETH for gas");
                             ("balance", Num (Num.dec 1 3)) ]), s') /\
    trace s' = trace Scenario.fresh ++ new /\
    forallb (fun e => negb (moves_funds e)) new = true.
Proof.
  apply (need_gas_below_reserve Scenario.poor emptyBody Scenario.fresh
           Scenario.rpc Scenario.signer (10 ^ 15)); vm_compute; reflexivity.
Defined.

(** No private key in the environment. *)
Lemma wallet_not_configured_witness :
  exists s' new,
    convert Scenario.keyless emptyBody Scenario.fresh =
      (inr (mkResponse 500 [("error", Str "Wallet not configured")]), s') /\
    trace s' = trace Scenario.fresh ++ new /\
    forallb (fun e => negb (reads_balance e || moves_funds e)) new = true.
Proof.
  apply (wallet_not_configured Scenario.keyless emptyBody Scenario.fresh).
  vm_compute. reflexivity.
Defined.

(** [{amount: -1}] with a balance of 1 ether. *)
Lemma negative_amount_refused_witness :
  exists s' new,
    convert Scenario.funded (Scenario.pay (Num (Num.of_Z (-1)))) Scenario.fresh =
      (inr (mkResponse 400 [ ("error", Str "Insufficient after gas");
                             ("balance", Num (Num.of_Z 1)) ]), s') /\
    trace s' = trace Scenario.fresh ++ new /\
    forallb (fun e => negb (moves_funds e)) new = true.
Proof.
  apply (negative_amount_refused Scenario.funded
           (Scenario.pay (Num (Num.of_Z (-1)))) Scenario.fresh
           Scenario.rpc Scenario.signer Scenario.ether); vm_compute; reflexivity.
Defined.

(** [{amount: 0.05}] with a balance of 1 ether: a success with
    [amount: 0.05], and one transaction of 50000000000000000 wei. *)
Lemma requested_amount_sent_witness :
  status (Scenario.answer Scenario.funded (Scenario.pay (Num (Num.dec 5 2)))) = OK /\
  map tx_value
    (signed (trace (Scenario.final Scenario.funded (Scenario.pay (Num (Num.dec 5 2))))))
    = [5 * 10 ^ 16] /\
  (status (Scenario.answer Scenario.funded (Scenario.pay (Num (Num.dec 5 2)))) = OK ->
   field "amount" (Scenario.answer Scenario.funded (Scenario.pay (Num (Num.dec 5 2))))
     = Some (Num (Num.dec 5 2))) /\
  exists new,
    trace (Scenario.final Scenario.funded (Scenario.pay (Num (Num.dec 5 2))))
      = trace Scenario.fresh ++ new /\
    Forall (fun tx => parseEther Scenario.funded
                        (Number_toString Scenario.funded (Num.dec 5 2))
                      = inr (tx_value tx)) (signed new).
Proof.
  split; [vm_compute; reflexivity|]. split; [vm_compute; reflexivity|].
  apply (requested_amount_sent Scenario.funded (Scenario.pay (Num (Num.dec 5 2)))
           Scenario.fresh Scenario.rpc Scenario.signer Scenario.ether);
    vm_compute; reflexivity.
Defined.

(** An empty body. *)
Lemma defaults_when_absent_witness :
  ethAmount Scenario.funded emptyBody = Num.dec 1 2 /\
  destination emptyBody = Str "0x4024Fd78E2AD5532FBF3ec2B3eC83870FAe45fC7".
Proof.
  destruct (defaults_when_absent Scenario.funded emptyBody) as [Hamount Hto].
  split.
  - apply Hamount. left. split; reflexivity.
  - apply Hto; reflexivity.
Defined.

(** [{amount: 5, amountETH: 3, to: "0xaaa", toAddress: "0xbbb"}]. *)
Lemma truthy_field_precedence_witness :
  ethAmount Scenario.funded Scenario.doubled = Num.of_Z 3 /\
  destination Scenario.doubled = Str "0xaaa".
Proof.
  destruct (truthy_field_precedence Scenario.funded Scenario.doubled)
    as (Hamount & _ & Hto & _).
  split.
  - rewrite Hamount; reflexivity.
  - rewrite Hto; reflexivity.
Defined.

(** [POST /withdraw]. *)
Lemma alias_is_convert_witness :
  handle Scenario.funded 2 (mkRequest POST "/withdraw" emptyBody) Scenario.fresh
    = handle Scenario.funded 1 (mkRequest POST "/convert" emptyBody) Scenario.fresh /\
  handle Scenario.funded 1 (mkRequest POST "/convert" emptyBody) Scenario.fresh
    = Some (convert Scenario.funded emptyBody Scenario.fresh).
Proof.
  apply (alias_is_convert Scenario.funded "/withdraw" emptyBody Scenario.fresh 0).
  cbn. tauto.
Defined.

(** [/status] against a node that fails the balance query. *)
Lemma status_never_errors_witness :
  exists r s',
    status_route Scenario.failing Scenario.running = (inr r, s') /\
    status r = 200 /\
    field "status" r = Some (Str "online") /\
    field "balance" r = Some (Str "0.000000").
Proof.
  destruct (status_never_errors Scenario.failing Scenario.running)
    as (r & s' & Hrun & Hcode & Honline & Hbal).
  exists r, s'. repeat split; try assumption.
  apply Hbal. exists "could not coalesce error". reflexivity.
Defined.

(* ================================================================== *)
(** ** Endpoint selection *)

Section Selection.

Variable W : World.

Lemma connect_usable (rpc : Provider) (s : State) :
  usable W rpc = true ->
  connect W rpc s =
    (inr true,
     mkState (Some rpc) (walletAfter W rpc (wallet s))
             (trace s ++ [EvGetBlockNumber rpc])).
Proof.
  unfold usable, walletAfter, connect. run.
  destruct (getBlockNumber W rpc) as [err|n]; [discriminate|].
  destruct (configuredKey W) as [k|]; [|reflexivity].
  destruct (walletAddress W k) as [err|a]; [discriminate|reflexivity].
Qed.

Lemma connect_unusable (rpc : Provider) (s : State) :
  usable W rpc = false ->
  exists msg,
    connect W rpc s =
      (inl msg, mkState (Some rpc) (wallet s) (trace s ++ [EvGetBlockNumber rpc])).
Proof.
  unfold usable, connect. run.
  destruct (getBlockNumber W rpc) as [err|n]; [eauto|].
  destruct (configuredKey W) as [k|]; [|discriminate].
  destruct (walletAddress W k) as [err|a]; [eauto|discriminate].
Qed.

(** The whole effect of the loop of [initProvider] on a list of endpoints. *)
Lemma initProvider_from_run (rpcs : list Provider) :
  forall s,
    initProvider_from W rpcs s =
      (inr (existsb (usable W) rpcs),
       mkState
         (match tried W rpcs with [] => provider s | l => Some (last l "") end)
         (match find (usable W) rpcs with
          | Some rpc => walletAfter W rpc (wallet s)
          | None => wallet s
          end)
         (trace s ++ map EvGetBlockNumber (tried W rpcs))).
Proof.
  induction rpcs as [|rpc rest IH]; intros s; cbn [initProvider_from].
  - cbn. rewrite app_nil_r. destruct s; reflexivity.
  - unfold tryCatch. cbn [existsb find tried].
    destruct (usable W rpc) eqn:Hu.
    + rewrite (connect_usable rpc s Hu). reflexivity.
    + destruct (connect_unusable rpc s Hu) as [msg ->].
      rewrite IH. cbn [provider wallet trace orb map].
      rewrite <- app_assoc. cbn [app].
      destruct (tried W rest) as [|r l]; reflexivity.
Qed.

End Selection.

(* ================================================================== *)
(** ** Every way through the transfer endpoint *)

Section Outcomes.

Variable W : World.

(** [transfer] under the handler's [try] answers along one of the ways of
    [Outcome], and leaves [provider] and [wallet] alone. *)
Lemma transfer_outcome (w : Wallet) (b : Body) (p : Provider) (s1 : State) :
  provider s1 = Some p ->
  exists r evs,
    tryCatch (transfer W w b) (fun msg => ret (failure msg)) s1
      = (inr r, mkState (provider s1) (wallet s1) (trace s1 ++ evs)) /\
    Outcome W w b p r evs.
Proof.
  intros Hp. unfold transfer. destruct s1 as [op ow tr].
  cbn [provider wallet trace] in *. subst op. run.
  destruct (getBalance W p (address w)) as [msg|bal] eqn:Hbal.
  { do 2 eexists. split; [reflexivity|]. apply BalanceFailed, Hbal. }
  destruct (Num.ltb (balanceETH W bal) lit_0_002) eqn:Hlt.
  { do 2 eexists. split; [reflexivity|]. apply NeedGas; assumption. }
  destruct (Num.leb (maxTransfer W b bal) Num.zero) eqn:Hle.
  { do 2 eexists. split; [reflexivity|]. apply Insufficient; assumption. }
  cbn [provider wallet trace].
  assert (Hgo : forall r evs,
            Sending W w b p r evs ->
            Outcome W w b p r (EvGetBalance p (address w) :: evs))
    by (intros r evs; apply (Proceeded W w b p bal); assumption).
  destruct (getTransactionCount W p (address w)) as [msg|nonce] eqn:Hnonce.
  { do 2 eexists. rewrite <- app_assoc. split; [reflexivity|].
    apply Hgo, NonceFailed, Hnonce. }
  cbn [provider wallet trace].
  destruct (getFeeData W p) as [msg|gasPrice] eqn:Hfee.
  { do 2 eexists. rewrite <- !app_assoc. split; [reflexivity|].
    apply Hgo. eapply FeeFailed; eassumption. }
  destruct (parseEther W (Number_toString W (ethAmount W b))) as [msg|v] eqn:Hv.
  { do 2 eexists. rewrite <- !app_assoc. split; [reflexivity|].
    apply Hgo. eapply WeiFailed; eassumption. }
  destruct (signTransaction W w (buildTx b v nonce gasPrice))
    as [msg|signedTx] eqn:Hsign.
  { do 2 eexists. rewrite <- !app_assoc. split; [reflexivity|].
    apply Hgo. eapply SignFailed; eassumption. }
  cbn [provider wallet trace].
  destruct (broadcastTransaction W p signedTx) as [msg|h] eqn:Hsend.
  { do 2 eexists. rewrite <- !app_assoc. split; [reflexivity|].
    apply Hgo. eapply SendFailed; eassumption. }
  cbn [provider wallet trace via hash].
  destruct (wait W p h) as [msg|receipt] eqn:Hwait.
  { do 2 eexists. rewrite <- !app_assoc. split; [reflexivity|].
    apply Hgo. eapply WaitFailed; eassumption. }
  do 2 eexists. rewrite <- !app_assoc. split; [reflexivity|].
  apply Hgo. eapply Sent; eassumption.
Qed.

(** [/convert] as a whole: the configuration error after the bootstrap, or
    one of the ways of [Outcome] from the state the bootstrap left. *)
Lemma convert_outcome (b : Body) (s : State) :
  (wallet (booted W s) = None /\
   convert W b s = (inr notConfigured, booted W s)) \/
  (exists p w r evs,
     provider (booted W s) = Some p /\
     wallet (booted W s) = Some w /\
     convert W b s =
       (inr r, mkState (Some p) (Some w) (trace (booted W s) ++ evs)) /\
     Outcome W w b p r evs).
Proof.
  rewrite convert_unfold.
  destruct (bootstrap_spec W s) as (_ & Hp & _).
  destruct (wallet (booted W s)) as [w|] eqn:Hw; [right|left; auto].
  destruct (provider (booted W s)) as [p|] eqn:Hpp; [|congruence].
  destruct (transfer_outcome w b p (booted W s) Hpp) as (r & evs & Hrun & Hout).
  exists p, w, r, evs. rewrite Hrun, Hpp, Hw. auto.
Qed.

End Outcomes.

(* ================================================================== *)
(** ** The bootstrap, endpoint by endpoint *)

Section Endpoints.

Variable W : World.

Lemma tried_first_usable (rpcs : list Provider) (rpc : Provider) :
  find (usable W) rpcs = Some rpc ->
  exists dead rest,
    rpcs = dead ++ rpc :: rest /\
    forallb (fun r => negb (usable W r)) dead = true /\
    tried W rpcs = dead ++ [rpc] /\
    existsb (usable W) rpcs = true.
Proof.
  induction rpcs as [|r rs IH]; cbn; [discriminate|].
  destruct (usable W r) eqn:Hu.
  - intros [= ->]. exists [], rs. auto.
  - intros Hf. destruct (IH Hf) as (dead & rest & -> & Hdead & -> & ->).
    exists (r :: dead), rest. cbn. rewrite Hu. auto.
Qed.

Lemma tried_none_usable (rpcs : list Provider) :
  (forall rpc, In rpc rpcs -> usable W rpc = false) ->
  tried W rpcs = rpcs /\ existsb (usable W) rpcs = false /\
  find (usable W) rpcs = None.
Proof.
  induction rpcs as [|r rs IH]; cbn; [auto|].
  intros H. rewrite (H r (or_introl eq_refl)).
  destruct IH as (-> & -> & ->); auto.
Qed.

Lemma last_snoc (l : list Provider) (x d : Provider) : last (l ++ [x]) d = x.
Proof.
  induction l as [|y l IH]; [reflexivity|].
  cbn [app]. destruct (l ++ [x]) eqn:E; [destruct l; discriminate|exact IH].
Qed.

Lemma bootstrap_runs_initProvider (s : State) :
  provider s = None \/ wallet s = None ->
  bootstrap W s = (inr tt, snd (initProvider W s)).
Proof.
  intros H. unfold bootstrap, initProvider.
  pose proof (initProvider_from_run W RPC_URLS s) as E.
  assert (Hrun : (initProvider_from W RPC_URLS ;; ret tt)%monad s
                 = (inr tt, snd (initProvider_from W RPC_URLS s)))
    by (run; rewrite E; reflexivity).
  destruct (provider s), (wallet s); try exact Hrun.
  destruct H; discriminate.
Qed.

End Endpoints.

(** X1: [initProvider] settles on the first endpoint of [RPC_URLS] on which a
    round succeeds: it returns [true], [provider] is that endpoint, the
    wallet (with a key) is bound to it, and the probes went, in list order,
    to the endpoints before it and to it, and to no later one. *)
Theorem initProvider_picks_first_usable (W : World) (s : State) (rpc : Provider) :
  find (usable W) RPC_URLS = Some rpc ->
  exists dead rest,
    RPC_URLS = dead ++ rpc :: rest /\
    forallb (fun r => negb (usable W r)) dead = true /\
    initProvider W s =
      (inr true,
       mkState (Some rpc) (walletAfter W rpc (wallet s))
               (trace s ++ map EvGetBlockNumber (dead ++ [rpc]))).
Proof.
  intros Hf.
  destruct (tried_first_usable W RPC_URLS rpc Hf)
    as (dead & rest & Hsplit & Hdead & Htried & Hex).
  exists dead, rest. split; [exact Hsplit|]. split; [exact Hdead|].
  unfold initProvider. rewrite initProvider_from_run, Hf, Htried, Hex.
  destruct (dead ++ [rpc]) eqn:E; [destruct dead; discriminate|].
  rewrite <- E, last_snoc. reflexivity.
Qed.

Lemma initProvider_none_usable (W : World) (s : State) :
  (forall rpc, In rpc RPC_URLS -> usable W rpc = false) ->
  initProvider W s =
    (inr false,
     mkState (Some "https://eth.llamarpc.com") (wallet s)
             (trace s ++ map EvGetBlockNumber RPC_URLS)).
Proof.
  intros H. destruct (tried_none_usable W RPC_URLS H) as (Ht & Hex & Hf).
  unfold initProvider. rewrite initProvider_from_run, Ht, Hex, Hf. reflexivity.
Qed.

(** X2: when no round succeeds, [initProvider] has probed all four endpoints
    in order and returns [false]; [provider] is then not null but the last
    endpoint of the list, and [wallet] is what it was. *)
Theorem initProvider_all_dead (W : World) (s : State) :
  (forall rpc, In rpc RPC_URLS -> usable W rpc = false) ->
  initProvider W s =
    (inr false,
     mkState (Some "https://eth.llamarpc.com") (wallet s)
             (trace s ++ map EvGetBlockNumber RPC_URLS)).
Proof. exact (initProvider_none_usable W s). Qed.

(** X3: a private key that ethers refuses makes every round fail, also on
    live endpoints: with no wallet yet, [/convert] probes all four endpoints
    and answers 500 'Wallet not configured'. *)
Theorem refused_key_is_not_configured
    (W : World) (b : Body) (s : State) (k msg : string) :
  configuredKey W = Some k ->
  walletAddress W k = inl msg ->
  wallet s = None ->
  convert W b s =
    (inr (mkResponse 500 [("error", Str "Wallet not configured")]),
     mkState (Some "https://eth.llamarpc.com") None
             (trace s ++ map EvGetBlockNumber RPC_URLS)).
Proof.
  intros Hk Hbad Hw.
  assert (Hdead : forall rpc, In rpc RPC_URLS -> usable W rpc = false).
  { intros rpc _. unfold usable. rewrite Hk, Hbad.
    destruct (getBlockNumber W rpc); reflexivity. }
  assert (Hboot : booted W s =
            mkState (Some "https://eth.llamarpc.com") None
                    (trace s ++ map EvGetBlockNumber RPC_URLS)).
  { unfold booted. rewrite bootstrap_runs_initProvider by (right; exact Hw).
    rewrite (initProvider_none_usable W s Hdead), Hw. reflexivity. }
  rewrite convert_unfold, Hboot. reflexivity.
Qed.

Lemma convert_when_bound
    (W : World) (b : Body) (s : State) (p : Provider) (w : Wallet) :
  provider s = Some p ->
  wallet s = Some w ->
  exists r evs,
    convert W b s = (inr r, mkState (Some p) (Some w) (trace s ++ evs)) /\
    forallb (fun e => negb (is_probe e)) evs = true.
Proof.
  intros Hp Hw.
  assert (Hboot : booted W s = s)
    by (unfold booted, bootstrap; rewrite Hp, Hw; reflexivity).
  destruct (convert_outcome W b s) as [[Hnone _]|(p' & w' & r & evs & Hp' & Hw' & Hrun & Hout)].
  - rewrite Hboot in Hnone. congruence.
  - rewrite Hboot in *. assert (p' = p) by congruence. assert (w' = w) by congruence.
    subst p' w'. exists r, evs. split; [exact Hrun|].
    destruct Hout as [msg ? | bal ? ? | bal ? ? ? | bal r evs ? ? ? Hsend];
      try reflexivity.
    destruct Hsend; reflexivity.
Qed.

(** X4: once [provider] and [wallet] are both set, [/convert] does not
    bootstrap again: it sends no probe and leaves both bindings as they
    are. *)
Theorem bound_process_skips_bootstrap
    (W : World) (b : Body) (s : State) (p : Provider) (w : Wallet) :
  provider s = Some p ->
  wallet s = Some w ->
  exists r evs,
    convert W b s = (inr r, mkState (Some p) (Some w) (trace s ++ evs)) /\
    forallb (fun e => negb (is_probe e)) evs = true.
Proof. exact (convert_when_bound W b s p w). Qed.

(** X5: without a private key no wallet is ever built, so every [/convert]
    runs the bootstrap again: it probes the endpoints up to the first usable
    one, answers 500 'Wallet not configured', and leaves [wallet] null. *)
Theorem keyless_process_probes_every_time (W : World) (b : Body) (s : State) :
  configuredKey W = None ->
  wallet s = None ->
  exists s',
    convert W b s =
      (inr (mkResponse 500 [("error", Str "Wallet not configured")]), s') /\
    wallet s' = None /\
    trace s' = trace s ++ map EvGetBlockNumber (tried W RPC_URLS) /\
    tried W RPC_URLS <> [].
Proof.
  intros Hk Hw.
  assert (Hboot : booted W s = snd (initProvider W s)).
  { unfold booted. rewrite bootstrap_runs_initProvider by (right; exact Hw).
    reflexivity. }
  unfold initProvider in Hboot. rewrite initProvider_from_run in Hboot.
  cbn [snd] in Hboot.
  assert (Hnow : wallet (booted W s) = None).
  { rewrite Hboot. cbn [wallet]. unfold walletAfter. rewrite Hk, Hw.
    destruct (find (usable W) RPC_URLS); reflexivity. }
  exists (booted W s). split; [rewrite convert_unfold, Hnow; reflexivity|].
  split; [exact Hnow|]. split.
  - rewrite Hboot. reflexivity.
  - cbn. destruct (usable W _); discriminate.
Qed.

(* ================================================================== *)
(** ** What every run of the transfer endpoint satisfies *)

Lemma truthy_or_r (a b : value) : truthy b = true -> truthy (a || b)%js = true.
Proof. unfold or. destruct (truthy a) eqn:E; auto. Qed.

Lemma min_above_zero (a y : number) :
  above_zero (Num.min a y) = true -> above_zero a = true /\ above_zero y = true.
Proof.
  unfold Num.min.
  destruct a as [[]|[]| |[] m e], y as [[]|[]| |[] m' e']; cbn;
    try (intros; split; (reflexivity || discriminate || assumption)).
  all: destruct (e ?= e')%Z; cbn; try (intros; split; (reflexivity || discriminate)).
  all: destruct (Pos.compare_cont Eq m m'); cbn; intros; split;
    (reflexivity || discriminate).
Qed.

Lemma min_not_nan (a y : number) :
  Num.is_nan a = false -> Num.is_nan y = false -> Num.is_nan (Num.min a y) = false.
Proof.
  unfold Num.min.
  destruct a as [[]|[]| |[] m e], y as [[]|[]| |[] m' e']; cbn;
    try discriminate; try reflexivity.
  all: destruct (e ?= e')%Z; cbn; try reflexivity.
  all: destruct (Pos.compare_cont Eq m m'); reflexivity.
Qed.

Lemma not_leb_zero_above (x : number) :
  Num.is_nan x = false -> Num.leb x Num.zero = false -> above_zero x = true.
Proof. destruct x as [[]|[]| |[] m e]; cbn; congruence. Qed.

Lemma ethAmount_is_truthy (W : World) (b : Body) :
  Num.truthy (ethAmount W b) = true.
Proof.
  unfold ethAmount, Num.or.
  destruct (Num.truthy (parseFloat W _)) eqn:E; [exact E|reflexivity].
Qed.

Lemma Sending_signs_once
    (W : World) (w : Wallet) (b : Body) (p : Provider) (r : Response)
    (evs : list Event) :
  Sending W w b p r evs ->
  (List.length (signed evs) <= 1)%nat /\ (List.length (broadcasts evs) <= 1)%nat /\
  (forall q sg, In (q, sg) (broadcasts evs) ->
     q = p /\ exists tx, In (EvSign w tx) evs /\ signTransaction W w tx = inr sg) /\
  (forall tx, In tx (signed evs) ->
     tx_to tx = destination b /\ tx_gasLimit tx = 21000 /\ tx_chainId tx = 1 /\
     parseEther W (Number_toString W (ethAmount W b)) = inr (tx_value tx) /\
     getTransactionCount W p (address w) = inr (tx_nonce tx) /\
     getFeeData W p = inr (tx_gasPrice tx)).
Proof.
  intros H. destruct H; cbn; (split; [lia|]); (split; [lia|]); split.
  all: match goal with
       | |- forall q sg, False -> _ => intros ? ? []
       | |- forall tx, False -> _ => intros ? []
       | |- forall q sg, _ \/ False -> _ =>
           let Hin := fresh "Hin" in
           intros ? ? Hin; destruct Hin as [Hin|[]]; injection Hin as <- <-;
           split; [reflexivity|]; eexists;
           split; [right; right; left; reflexivity | assumption]
       | |- forall tx, _ \/ False -> _ =>
           let Hin := fresh "Hin" in
           intros ? Hin; destruct Hin as [<-|[]]; cbn; auto 10
       end.
Qed.

(** X6: [/convert] always answers, and with one of five bodies: the
    configuration error or a caught error (500, [{error}]), one of the two
    refusals (400, [{error, balance}]), or the success (200). *)
Theorem convert_answer_shapes (W : World) (b : Body) (s : State) :
  exists r s',
    convert W b s = (inr r, s') /\
    is_status (status r) = true /\
    ((exists msg, r = mkResponse 500 [("error", Str msg)]) \/
     (exists bal, r = mkResponse 400 [ ("error", Str "Need 0.002 ETH for gas");
                                       ("balance", Num bal) ]) \/
     (exists bal, r = mkResponse 400 [ ("error", Str "Insufficient after gas");
                                       ("balance", Num bal) ]) \/
     (exists h w receipt, r = converted W h w b receipt)).
Proof.
  destruct (convert_outcome W b s)
    as [[_ Hrun]|(p & w & r & evs & _ & _ & Hrun & Hout)].
  - do 2 eexists. split; [exact Hrun|]. split; [reflexivity|]. left.
    eexists. reflexivity.
  - do 2 eexists. split; [exact Hrun|].
    destruct Hout as [msg ? | bal ? ? | bal ? ? ? | bal r evs ? ? ? Hsend].
    + split; [reflexivity|]. left. eexists. reflexivity.
    + split; [reflexivity|]. right. left. eexists. reflexivity.
    + split; [reflexivity|]. right. right. left. eexists. reflexivity.
    + destruct Hsend; (split; [reflexivity|]);
        try (left; eexists; reflexivity).
      right. right. right. do 3 eexists. reflexivity.
Qed.

(** X7: [/convert] changes [provider] and [wallet] in its bootstrap only;
    whatever it answers, [provider] is set afterwards, and the trace has
    only grown. *)
Theorem convert_keeps_bindings (W : World) (b : Body) (s : State) :
  provider (snd (convert W b s)) = provider (booted W s) /\
  wallet (snd (convert W b s)) = wallet (booted W s) /\
  provider (snd (convert W b s)) <> None /\
  exists new, trace (snd (convert W b s)) = trace s ++ new.
Proof.
  destruct (bootstrap_spec W s) as (_ & Hset & probes & Ht & _).
  destruct (convert_outcome W b s)
    as [[_ Hrun]|(p & w & r & evs & Hp & Hw & Hrun & _)];
    rewrite Hrun; cbn [snd provider wallet trace].
  - repeat split; auto. exists probes. exact Ht.
  - rewrite Hp, Hw. repeat split; try discriminate.
    exists (probes ++ evs). rewrite Ht, app_assoc. reflexivity.
Qed.

(** X8: a [/convert] request signs at most one transaction and broadcasts at
    most one, and what it broadcasts is what [signTransaction] returned for
    the transaction it signed, sent through the bootstrapped provider. *)
Theorem at_most_one_transaction (W : World) (b : Body) (s : State) :
  exists new,
    trace (snd (convert W b s)) = trace s ++ new /\
    (List.length (signed new) <= 1)%nat /\
    (List.length (broadcasts new) <= 1)%nat /\
    (forall p signedTx, In (p, signedTx) (broadcasts new) ->
       provider (booted W s) = Some p /\
       exists w tx, In (EvSign w tx) new /\
                    signTransaction W w tx = inr signedTx).
Proof.
  destruct (bootstrap_spec W s) as (_ & _ & probes & Ht & Hprobes).
  assert (Hquiet : signed probes = [] /\ broadcasts probes = []).
  { clear Ht. induction probes as [|e l IH]; [auto|].
    cbn in Hprobes. apply andb_true_iff in Hprobes as [He Hl].
    destruct e; try discriminate. cbn. auto. }
  destruct Hquiet as [Hs Hb].
  assert (Happ : forall evs, signed (probes ++ evs) = signed evs /\
                             broadcasts (probes ++ evs) = broadcasts evs).
  { clear Ht Hs Hb. induction probes as [|e l IH]; [auto|]. intros evs.
    cbn in Hprobes. apply andb_true_iff in Hprobes as [He Hl].
    destruct e; try discriminate. cbn. auto. }
  destruct (convert_outcome W b s)
    as [[_ Hrun]|(p & w & r & evs & Hp & Hw & Hrun & Hout)];
    rewrite Hrun; cbn [snd trace].
  - exists probes. rewrite Hs, Hb. cbn. repeat split; auto; try lia; try tauto.
  - exists (probes ++ evs). destruct (Happ evs) as [-> ->].
    split; [rewrite Ht, app_assoc; reflexivity|].
    assert (Hone : (List.length (signed evs) <= 1)%nat /\
                   (List.length (broadcasts evs) <= 1)%nat /\
                   (forall q sg, In (q, sg) (broadcasts evs) ->
                      q = p /\ exists tx, In (EvSign w tx) evs /\
                                          signTransaction W w tx = inr sg)).
    { destruct Hout as [msg ? | bal ? ? | bal ? ? ? | bal r evs ? ? ? Hsend];
        try (cbn; repeat split; try lia; tauto).
      destruct (Sending_signs_once W w b p r evs Hsend) as (K1 & K2 & K3 & _).
      cbn. split; [exact K1|]. split; [exact K2|].
      intros q sg Hin. destruct (K3 q sg Hin) as (Hq & tx & Htx & Hsg).
      split; [exact Hq|]. exists tx. split; [right; exact Htx|exact Hsg]. }
    destruct Hone as (K1 & K2 & K3).
    split; [exact K1|]. split; [exact K2|].
    intros q sg Hin. destruct (K3 q sg Hin) as (-> & tx & Htx & Hsg).
    split; [exact Hp|].
    exists w, tx. split; [apply in_or_app; right; exact Htx|exact Hsg].
Qed.

(** X9: every transaction [/convert] signs goes to the destination chosen
    from the body, with gas limit 21000 and chain id 1, the nonce returned by
    [getTransactionCount] for the wallet's address and the gas price
    returned by [getFeeData]. *)
Theorem signed_tx_fields (W : World) (b : Body) (s : State) :
  exists new,
    trace (snd (convert W b s)) = trace s ++ new /\
    forall tx, In tx (signed new) ->
      tx_to tx = destination b /\
      tx_gasLimit tx = 21000 /\
      tx_chainId tx = 1 /\
      exists p w,
        provider (booted W s) = Some p /\
        wallet (booted W s) = Some w /\
        getTransactionCount W p (address w) = inr (tx_nonce tx) /\
        getFeeData W p = inr (tx_gasPrice tx).
Proof.
  destruct (bootstrap_spec W s) as (_ & _ & probes & Ht & Hprobes).
  pose proof (probes_sign_nothing probes Hprobes) as Hsig.
  destruct (convert_outcome W b s)
    as [[_ Hrun]|(p & w & r & evs & Hp & Hw & Hrun & Hout)];
    rewrite Hrun; cbn [snd trace].
  - exists probes. split; [exact Ht|]. rewrite Hsig. intros tx [].
  - exists (probes ++ evs). split; [rewrite Ht, app_assoc; reflexivity|].
    rewrite signed_app, Hsig. cbn [app].
    destruct Hout as [msg ? | bal ? ? | bal ? ? ? | bal r evs ? ? ? Hsend];
      try (intros tx []).
    destruct (Sending_signs_once W w b p r evs Hsend) as (_ & _ & _ & K).
    cbn [signed]. intros tx Hin.
    destruct (K tx Hin) as (Kto & Kgas & Kchain & _ & Knonce & Kfee).
    repeat split; auto. exists p, w. auto.
Qed.

(** X10: with a balance that reads as a number, [/convert] signs a
    transaction only when the effective amount is strictly positive, the
    balance is not below 0.002 and balance - 0.002 is strictly positive. *)
Theorem signed_only_if_positive
    (W : World) (b : Body) (s : State) (p : Provider) (w : Wallet) (bal : Z)
    (new : list Event) :
  provider (booted W s) = Some p ->
  wallet (booted W s) = Some w ->
  getBalance W p (address w) = inr bal ->
  Num.is_nan (balanceETH W bal) = false ->
  trace (snd (convert W b s)) = trace s ++ new ->
  signed new <> [] ->
  above_zero (ethAmount W b) = true /\
  Num.ltb (balanceETH W bal) lit_0_002 = false /\
  above_zero (Num.sub (balanceETH W bal) lit_0_002) = true.
Proof.
  intros Hp Hw Hbal Hnum Hnew Hsigned.
  destruct (bootstrap_spec W s) as (_ & _ & probes & Ht & Hprobes).
  pose proof (probes_sign_nothing probes Hprobes) as Hsig.
  destruct (convert_outcome W b s)
    as [[Hnone _]|(p' & w' & r & evs & Hp' & Hw' & Hrun & Hout)];
    [congruence|].
  assert (p' = p) by congruence. assert (w' = w) by congruence. subst p' w'.
  rewrite Hrun in Hnew. cbn [snd trace] in Hnew.
  rewrite Ht, <- app_assoc in Hnew. apply app_inv_head in Hnew. subst new.
  rewrite signed_app, Hsig in Hsigned. cbn [app] in Hsigned.
  destruct Hout as [msg ? | bal' ? ? | bal' ? ? ? | bal' r evs Hb Hlt Hle Hsend];
    try (cbn in Hsigned; congruence).
  assert (bal' = bal) by congruence. subst bal'.
  assert (Hpos : above_zero (maxTransfer W b bal) = true).
  { apply not_leb_zero_above; [|exact Hle]. unfold maxTransfer.
    apply min_not_nan.
    - pose proof (ethAmount_is_truthy W b) as Htr. unfold Num.truthy in Htr.
      destruct (Num.is_nan (ethAmount W b)); [discriminate|reflexivity].
    - apply NumFacts.sub_reserve_not_nan, Hnum. }
  destruct (min_above_zero _ _ Hpos) as [Ha Hy]. auto.
Qed.

(** X11: when the node accepts the transaction but waiting for the receipt
    fails, [/convert] answers 500 with the error's message although the
    transaction was signed and broadcast. *)
Theorem unconfirmed_broadcast_is_500
    (W : World) (b : Body) (s : State) (p : Provider) (w : Wallet) (bal : Z)
    (nonce : number) (gasPrice : option Z) (v : Z) (signedTx h msg : string) :
  provider (booted W s) = Some p ->
  wallet (booted W s) = Some w ->
  getBalance W p (address w) = inr bal ->
  Num.ltb (balanceETH W bal) lit_0_002 = false ->
  Num.leb (maxTransfer W b bal) Num.zero = false ->
  getTransactionCount W p (address w) = inr nonce ->
  getFeeData W p = inr gasPrice ->
  parseEther W (Number_toString W (ethAmount W b)) = inr v ->
  signTransaction W w (buildTx b v nonce gasPrice) = inr signedTx ->
  broadcastTransaction W p signedTx = inr h ->
  wait W p h = inl msg ->
  convert W b s =
    (inr (mkResponse 500 [("error", Str msg)]),
     mkState (Some p) (Some w)
       (trace (booted W s) ++
          [ EvGetBalance p (address w);
            EvGetTransactionCount p (address w);
            EvGetFeeData p;
            EvSign w (buildTx b v nonce gasPrice);
            EvBroadcast p signedTx;
            EvWait p h ])).
Proof.
  intros Hp Hw Hbal Hlt Hle Hnonce Hfee Hv Hsign Hsend Hwait.
  rewrite convert_unfold, Hw. unfold transfer.
  destruct (booted W s) as [op ow tr]. cbn [provider wallet trace] in *.
  subst op ow. run.
  rewrite Hbal, Hlt, Hle. cbn [provider wallet trace].
  rewrite Hnonce. cbn [provider wallet trace].
  rewrite Hfee, Hv, Hsign. cbn [provider wallet trace].
  rewrite Hsend. cbn [provider wallet trace via hash].
  rewrite Hwait, <- !app_assoc. reflexivity.
Qed.

(** X12: when the node refuses the transaction, [/convert] answers 500 with
    the node's message; the transaction was signed, and no receipt is
    waited for. *)
Theorem rejected_broadcast_is_500
    (W : World) (b : Body) (s : State) (p : Provider) (w : Wallet) (bal : Z)
    (nonce : number) (gasPrice : option Z) (v : Z) (signedTx msg : string) :
  provider (booted W s) = Some p ->
  wallet (booted W s) = Some w ->
  getBalance W p (address w) = inr bal ->
  Num.ltb (balanceETH W bal) lit_0_002 = false ->
  Num.leb (maxTransfer W b bal) Num.zero = false ->
  getTransactionCount W p (address w) = inr nonce ->
  getFeeData W p = inr gasPrice ->
  parseEther W (Number_toString W (ethAmount W b)) = inr v ->
  signTransaction W w (buildTx b v nonce gasPrice) = inr signedTx ->
  broadcastTransaction W p signedTx = inl msg ->
  convert W b s =
    (inr (mkResponse 500 [("error", Str msg)]),
     mkState (Some p) (Some w)
       (trace (booted W s) ++
          [ EvGetBalance p (address w);
            EvGetTransactionCount p (address w);
            EvGetFeeData p;
            EvSign w (buildTx b v nonce gasPrice);
            EvBroadcast p signedTx ])).
Proof.
  intros Hp Hw Hbal Hlt Hle Hnonce Hfee Hv Hsign Hsend.
  rewrite convert_unfold, Hw. unfold transfer.
  destruct (booted W s) as [op ow tr]. cbn [provider wallet trace] in *.
  subst op ow. run.
  rewrite Hbal, Hlt, Hle. cbn [provider wallet trace].
  rewrite Hnonce. cbn [provider wallet trace].
  rewrite Hfee, Hv, Hsign. cbn [provider wallet trace].
  rewrite Hsend, <- !app_assoc. reflexivity.
Qed.

(** X13: when the balance query fails, [/convert] answers 500 with the
    error's message after that one call. *)
Theorem balance_failure_is_500
    (W : World) (b : Body) (s : State) (p : Provider) (w : Wallet) (msg : string) :
  provider (booted W s) = Some p ->
  wallet (booted W s) = Some w ->
  getBalance W p (address w) = inl msg ->
  convert W b s =
    (inr (mkResponse 500 [("error", Str msg)]),
     mkState (Some p) (Some w)
             (trace (booted W s) ++ [EvGetBalance p (address w)])).
Proof.
  intros Hp Hw Hbal.
  rewrite convert_unfold, Hw. unfold transfer.
  destruct (booted W s) as [op ow tr]. cbn [provider wallet trace] in *.
  subst op ow. run. rewrite Hbal. reflexivity.
Qed.

(** X14: when the effective amount has no decimal notation that
    [parseEther] accepts, [/convert] has passed both guards and queried
    nonce and fee, then answers 500 with the message of [parseEther]; nothing
    is signed. *)
Theorem unprintable_amount_is_500
    (W : World) (b : Body) (s : State) (p : Provider) (w : Wallet) (bal : Z)
    (nonce : number) (gasPrice : option Z) (msg : string) :
  provider (booted W s) = Some p ->
  wallet (booted W s) = Some w ->
  getBalance W p (address w) = inr bal ->
  Num.ltb (balanceETH W bal) lit_0_002 = false ->
  Num.leb (maxTransfer W b bal) Num.zero = false ->
  getTransactionCount W p (address w) = inr nonce ->
  getFeeData W p = inr gasPrice ->
  parseEther W (Number_toString W (ethAmount W b)) = inl msg ->
  convert W b s =
    (inr (mkResponse 500 [("error", Str msg)]),
     mkState (Some p) (Some w)
       (trace (booted W s) ++
          [ EvGetBalance p (address w);
            EvGetTransactionCount p (address w);
            EvGetFeeData p ])).
Proof.
  intros Hp Hw Hbal Hlt Hle Hnonce Hfee Hv.
  rewrite convert_unfold, Hw. unfold transfer.
  destruct (booted W s) as [op ow tr]. cbn [provider wallet trace] in *.
  subst op ow. run.
  rewrite Hbal, Hlt, Hle. cbn [provider wallet trace].
  rewrite Hnonce. cbn [provider wallet trace].
  rewrite Hfee, Hv, <- !app_assoc. reflexivity.
Qed.

(** X15: a 200 from [/convert] means that all six calls were made, in this
    order and once each: balance, nonce, fee, signature, broadcast, wait; the
    hash reported is the one the broadcast returned and the block number and
    gas are those of its receipt. *)
Theorem success_means_six_calls
    (W : World) (b : Body) (s : State) (r : Response) (s' : State) :
  convert W b s = (inr r, s') ->
  status r = OK ->
  exists p w nonce gasPrice v signedTx h receipt,
    broadcastTransaction W p signedTx = inr h /\
    wait W p h = inr receipt /\
    r = converted W h w b receipt /\
    s' = mkState (Some p) (Some w)
           (trace (booted W s) ++
              [ EvGetBalance p (address w);
                EvGetTransactionCount p (address w);
                EvGetFeeData p;
                EvSign w (buildTx b v nonce gasPrice);
                EvBroadcast p signedTx;
                EvWait p h ]).
Proof.
  intros Hrun Hok.
  destruct (convert_outcome W b s)
    as [[_ Hrun']|(p & w & r' & evs & _ & _ & Hrun' & Hout)];
    rewrite Hrun' in Hrun; injection Hrun as <- <-; [discriminate|].
  destruct Hout as [msg ? | bal ? ? | bal ? ? ? | bal r' evs ? ? ? Hsend];
    try discriminate.
  destruct Hsend; try discriminate.
  exists p, w, nonce, gasPrice, v, signedTx, h, receipt. auto.
Qed.

(** X16: a 400 from [/convert] means that the balance was read and nothing
    else was called after it; the body carries that balance in ether. *)
Theorem refusal_means_one_balance_query
    (W : World) (b : Body) (s : State) (r : Response) (s' : State) :
  convert W b s = (inr r, s') ->
  status r = 400 ->
  exists p w bal,
    getBalance W p (address w) = inr bal /\
    field "balance" r = Some (Num (balanceETH W bal)) /\
    s' = mkState (Some p) (Some w)
           (trace (booted W s) ++ [EvGetBalance p (address w)]).
Proof.
  intros Hrun Hno.
  destruct (convert_outcome W b s)
    as [[_ Hrun']|(p & w & r' & evs & _ & _ & Hrun' & Hout)];
    rewrite Hrun' in Hrun; injection Hrun as <- <-; [discriminate|].
  destruct Hout as [msg ? | bal ? ? | bal ? ? ? | bal r' evs ? ? ? Hsend];
    try discriminate.
  - exists p, w, bal. auto.
  - exists p, w, bal. auto.
  - destruct Hsend; discriminate.
Qed.

(** X17: whatever the body, the effective amount is a number other than
    NaN and 0, and the destination is truthy: never absent, null or the
    empty string. *)
Theorem effective_inputs_truthy (W : World) (b : Body) :
  Num.truthy (ethAmount W b) = true /\ truthy (destination b) = true.
Proof.
  split; [apply ethAmount_is_truthy|].
  unfold destination. apply truthy_or_r. reflexivity.
Qed.

(* ================================================================== *)
(** ** The read-only routes *)

Lemma balance_route_unfold (W : World) (s : State) :
  balance_route W s =
  match provider (booted W s), wallet (booted W s) with
  | Some p, Some w =>
      match getBalance W p (address w) with
      | inr bal =>
          (inr (mkResponse OK [ ("wallet", Str (address w));
                                ("balance", Str (formatEther W bal));
                                ("treasury", Str TREASURY) ]),
           mkState (Some p) (Some w)
                   (trace (booted W s) ++ [EvGetBalance p (address w)]))
      | inl msg =>
          (inr (failure msg),
           mkState (Some p) (Some w)
                   (trace (booted W s) ++ [EvGetBalance p (address w)]))
      end
  | Some p, None =>
      (inr (failure "Cannot read properties of null (reading 'address')"),
       booted W s)
  | None, _ =>
      (inr (failure "Cannot read properties of null (reading 'getBalance')"),
       booted W s)
  end.
Proof.
  unfold balance_route. destruct (bootstrap_spec W s) as (E & _).
  run. rewrite E. destruct (booted W s) as [[p|] [w|] tr];
    cbn [provider wallet trace]; try reflexivity.
  destruct (getBalance W p (address w)); reflexivity.
Qed.

(** X18: with a wallet and a balance query that succeeds, [/balance]
    answers 200 with the wallet's address, the balance as [formatEther]
    prints it (a string, not a number) and the fixed treasury address, after
    one balance query. *)
Theorem balance_route_ok
    (W : World) (s : State) (p : Provider) (w : Wallet) (bal : Z) :
  provider (booted W s) = Some p ->
  wallet (booted W s) = Some w ->
  getBalance W p (address w) = inr bal ->
  balance_route W s =
    (inr (mkResponse 200
            [ ("wallet", Str (address w));
              ("balance", Str (formatEther W bal));
              ("treasury", Str "0x4024Fd78E2AD5532FBF3ec2B3eC83870FAe45fC7") ]),
     mkState (Some p) (Some w)
             (trace (booted W s) ++ [EvGetBalance p (address w)])).
Proof.
  intros Hp Hw Hbal. rewrite balance_route_unfold, Hp, Hw, Hbal. reflexivity.
Qed.

(** X19: when [wallet] is still unset after the bootstrap, [/balance] has no
    check of its own: reading [wallet.address] throws, and the answer is 500
    with the TypeError's message, not 'Wallet not configured'; no balance is
    queried. *)
Theorem balance_route_without_wallet (W : World) (s : State) :
  wallet (booted W s) = None ->
  balance_route W s =
    (inr (mkResponse 500
            [("error", Str "Cannot read properties of null (reading 'address')")]),
     booted W s).
Proof.
  intros Hw. rewrite balance_route_unfold, Hw.
  destruct (bootstrap_spec W s) as (_ & Hp & _).
  destruct (provider (booted W s)); [reflexivity|congruence].
Qed.

(** X20: [/balance] always answers, with 200 or 500, and never signs or
    broadcasts. *)
Theorem balance_route_reads_only (W : World) (s : State) :
  exists r s' new,
    balance_route W s = (inr r, s') /\
    (status r = 200 \/ status r = 500) /\
    trace s' = trace s ++ new /\
    forallb (fun e => negb (moves_funds e)) new = true.
Proof.
  rewrite balance_route_unfold.
  destruct (bootstrap_spec W s) as (_ & _ & probes & Ht & Hprobes).
  pose proof (probes_move_nothing probes Hprobes) as Hq.
  destruct (provider (booted W s)) as [p|]; [destruct (wallet (booted W s)) as [w|]|].
  - destruct (getBalance W p (address w)) as [msg|bal];
      do 2 eexists; exists (probes ++ [EvGetBalance p (address w)]);
      (split; [reflexivity|]); cbn [status trace];
      (split; [auto|]); (split; [rewrite Ht, app_assoc; reflexivity|]);
      rewrite forallb_app, Hq; reflexivity.
  - do 2 eexists. exists probes. split; [reflexivity|]. cbn. auto.
  - do 2 eexists. exists probes. split; [reflexivity|]. cbn. auto.
Qed.

(** X21: [/status] does not bootstrap: it leaves [provider] and [wallet] as
    they are, makes no call at all while one of them is unset, and otherwise
    makes exactly one balance query. *)
Theorem status_route_is_passive (W : World) (s : State) :
  provider (snd (status_route W s)) = provider s /\
  wallet (snd (status_route W s)) = wallet s /\
  (provider s = None \/ wallet s = None ->
   trace (snd (status_route W s)) = trace s) /\
  (forall p w, provider s = Some p -> wallet s = Some w ->
   trace (snd (status_route W s)) = trace s ++ [EvGetBalance p (address w)]).
Proof.
  unfold status_route, readBalance. run.
  destruct (provider s) as [p|] eqn:Hp; [destruct (wallet s) as [w|] eqn:Hw|].
  - destruct (getBalance W p (address w)); cbn [snd provider wallet trace];
      repeat split; auto; try (intros [|]; discriminate);
      intros p' w' [= <-] [= <-]; reflexivity.
  - cbn [snd provider wallet trace]. repeat split; auto. discriminate.
  - cbn [snd provider wallet trace]. repeat split; auto. discriminate.
Qed.

(** X22: with [provider] and [wallet] set and a balance query that
    succeeds, [/status] shows the wallet's address and the balance in ether
    printed with six decimals. *)
Theorem status_route_shows_balance
    (W : World) (s : State) (p : Provider) (w : Wallet) (bal : Z) :
  provider s = Some p ->
  wallet s = Some w ->
  getBalance W p (address w) = inr bal ->
  fst (status_route W s) =
    inr (mkResponse 200
           [ ("status", Str "online");
             ("method", Str "V2-SignBroadcast");
             ("wallet", Str (address w));
             ("balance", Str (toFixed6 W (balanceETH W bal))) ]).
Proof.
  intros Hp Hw Hbal. unfold status_route, readBalance. run.
  rewrite Hp, Hw, Hbal. cbn [wallet]. rewrite Hw. reflexivity.
Qed.

(* ================================================================== *)
(** ** The router *)





(** X24: the transfer paths are registered for POST only and the read-only
    paths for GET only: with the other method no handler of the file runs,
    no call is made and the state is untouched (Express answers 404). *)
Theorem wrong_method_runs_nothing
    (W : World) (path : string) (b : Body) (s : State) (fuel : nat) :
  (In path ("/convert" :: aliases) ->
   exists r, handle W (S fuel) (mkRequest GET path b) s = Some (inr r, s) /\
             status r = 404) /\
  (In path ["/balance"; "/status"; "/health"] ->
   exists r, handle W (S fuel) (mkRequest POST path b) s = Some (inr r, s) /\
             status r = 404).
Proof.
  split.
  - intros [<-|[<-|[<-|[<-|[<-|[]]]]]]; eexists; split; reflexivity.
  - intros [<-|[<-|[<-|[]]]]; eexists; split; reflexivity.
Qed.

(** X25: requests in sequence: when a [/convert] request has left a wallet
    behind, the next [/convert] request, whatever its body, sends no probe
    and keeps the same provider and wallet. *)
Theorem second_request_does_not_probe
    (W : World) (b1 b2 : Body) (s : State) (w : Wallet) :
  wallet (snd (convert W b1 s)) = Some w ->
  exists p r evs,
    provider (snd (convert W b1 s)) = Some p /\
    convert W b2 (snd (convert W b1 s)) =
      (inr r, mkState (Some p) (Some w) (trace (snd (convert W b1 s)) ++ evs)) /\
    forallb (fun e => negb (is_probe e)) evs = true.
Proof.
  intros Hw.
  assert (Hp : provider (snd (convert W b1 s)) <> None).
  { destruct (bootstrap_spec W s) as (_ & Hset & _).
    destruct (convert_outcome W b1 s)
      as [[_ Hrun]|(p & w' & r & evs & _ & _ & Hrun & _)];
      rewrite Hrun; cbn [snd provider]; [exact Hset|discriminate]. }
  destruct (provider (snd (convert W b1 s))) as [p|] eqn:Ep; [|congruence].
  destruct (convert_when_bound W b2 _ p w Ep Hw) as (r & evs & Hrun & Hq).
  exists p, r, evs. auto.
Qed.

(** X26: a 200 from [/convert] names the sender and the destination of the
    one transaction that was signed: [from] is the address of the wallet
    that signed it and [to] is its destination. *)
Theorem success_echoes_signed_tx
    (W : World) (b : Body) (s : State) (r : Response) (s' : State)
    (new : list Event) :
  convert W b s = (inr r, s') ->
  status r = OK ->
  trace s' = trace s ++ new ->
  exists w tx,
    signed new = [tx] /\
    In (EvSign w tx) new /\
    field "from" r = Some (Str (address w)) /\
    field "to" r = Some (tx_to tx).
Proof.
  intros Hrun Hok Hnew.
  destruct (bootstrap_spec W s) as (_ & _ & probes & Ht & Hprobes).
  pose proof (probes_sign_nothing probes Hprobes) as Hsig.
  destruct (convert_outcome W b s)
    as [[_ Hrun']|(p & w & r' & evs & _ & _ & Hrun' & Hout)];
    rewrite Hrun' in Hrun; injection Hrun as <- <-; [discriminate|].
  cbn [trace] in Hnew. rewrite Ht, <- app_assoc in Hnew.
  apply app_inv_head in Hnew. subst new.
  destruct Hout as [msg ? | bal ? ? | bal ? ? ? | bal r' evs ? ? ? Hsend];
    try discriminate.
  destruct Hsend; try discriminate.
  exists w, (buildTx b v nonce gasPrice).
  rewrite signed_app, Hsig. repeat split.
  apply in_or_app. right. cbn. auto.
Qed.

(** X27: with a balance of exactly 0.002 ether nothing can be sent: the
    first guard lets the request through, balance - 0.002 is 0, and
    [/convert] answers 400 'Insufficient after gas' whatever the body. *)
Theorem balance_at_reserve_is_insufficient
    (W : World) (b : Body) (s : State) (p : Provider) (w : Wallet) (bal : Z) :
  provider (booted W s) = Some p ->
  wallet (booted W s) = Some w ->
  getBalance W p (address w) = inr bal ->
  balanceETH W bal = lit_0_002 ->
  convert W b s =
    (inr (mkResponse 400 [ ("error", Str "Insufficient after gas");
                           ("balance", Num lit_0_002) ]),
     mkState (Some p) (Some w)
             (trace (booted W s) ++ [EvGetBalance p (address w)])).
Proof.
  intros Hp Hw Hbal Heq.
  assert (Hguard : Num.leb (maxTransfer W b bal) Num.zero = true).
  { unfold maxTransfer. rewrite Heq.
    change (Num.sub lit_0_002 lit_0_002) with Num.zero.
    pose proof (ethAmount_is_truthy W b) as Htr.
    destruct (ethAmount W b) as [[]|[]| |[] m e]; try discriminate; reflexivity. }
  rewrite convert_unfold, Hw. unfold transfer.
  destruct (booted W s) as [op ow tr]. cbn [provider wallet trace] in *.
  subst op ow. run. rewrite Hbal, Hguard, Heq. reflexivity.
Qed.

(* ================================================================== *)
(** ** Further worked examples *)

(** Two dead endpoints before a live one. *)
Lemma initProvider_picks_first_usable_witness :
  exists dead rest,
    RPC_URLS = dead ++ "https://rpc.ankr.com/eth" :: rest /\
    forallb (fun r => negb (usable Cases.third_up r)) dead = true /\
    initProvider Cases.third_up Scenario.fresh =
      (inr true,
       mkState (Some "https://rpc.ankr.com/eth")
               (walletAfter Cases.third_up "https://rpc.ankr.com/eth" None)
               (trace Scenario.fresh
                  ++ map EvGetBlockNumber (dead ++ ["https://rpc.ankr.com/eth"]))).
Proof.
  apply (initProvider_picks_first_usable Cases.third_up Scenario.fresh
           "https://rpc.ankr.com/eth").
  vm_compute. reflexivity.
Defined.

(** No endpoint answers. *)
Lemma initProvider_all_dead_witness :
  initProvider Cases.down Scenario.fresh =
    (inr false,
     mkState (Some "https://eth.llamarpc.com") None
             (map EvGetBlockNumber RPC_URLS)).
Proof.
  apply (initProvider_all_dead Cases.down Scenario.fresh).
  intros rpc _. reflexivity.
Defined.

(** A key that ethers refuses, on live endpoints. *)
Lemma refused_key_is_not_configured_witness :
  convert Cases.bad_key emptyBody Scenario.fresh =
    (inr (mkResponse 500 [("error", Str "Wallet not configured")]),
     mkState (Some "https://eth.llamarpc.com") None
             (map EvGetBlockNumber RPC_URLS)).
Proof.
  apply (refused_key_is_not_configured Cases.bad_key emptyBody Scenario.fresh
           "xyz" "invalid private key"); reflexivity.
Defined.

(** A bootstrapped process. *)
Lemma bound_process_skips_bootstrap_witness :
  exists r evs,
    convert Scenario.funded emptyBody Scenario.running =
      (inr r, mkState (Some Scenario.rpc) (Some Scenario.signer)
                      (trace Scenario.running ++ evs)) /\
    forallb (fun e => negb (is_probe e)) evs = true.
Proof.
  apply (bound_process_skips_bootstrap Scenario.funded emptyBody Scenario.running
           Scenario.rpc Scenario.signer); reflexivity.
Defined.

(** A process without a private key. *)
Lemma keyless_process_probes_every_time_witness :
  exists s',
    convert Scenario.keyless emptyBody Scenario.fresh =
      (inr (mkResponse 500 [("error", Str "Wallet not configured")]), s') /\
    wallet s' = None /\
    trace s' = trace Scenario.fresh
                 ++ map EvGetBlockNumber (tried Scenario.keyless RPC_URLS) /\
    tried Scenario.keyless RPC_URLS <> [].
Proof.
  apply (keyless_process_probes_every_time Scenario.keyless emptyBody
           Scenario.fresh); reflexivity.
Defined.

(** [{amount: 0.05}] with 1 ether: something is signed, so the amount and
    balance - 0.002 are positive. *)
Lemma signed_only_if_positive_witness :
  above_zero (ethAmount Scenario.funded (Scenario.pay (Num (Num.dec 5 2)))) = true /\
  Num.ltb (balanceETH Scenario.funded Scenario.ether) lit_0_002 = false /\
  above_zero (Num.sub (balanceETH Scenario.funded Scenario.ether) lit_0_002) = true.
Proof.
  apply (signed_only_if_positive Scenario.funded (Scenario.pay (Num (Num.dec 5 2)))
           Scenario.fresh Scenario.rpc Scenario.signer Scenario.ether
           (trace (Scenario.final Scenario.funded (Scenario.pay (Num (Num.dec 5 2))))));
    try (vm_compute; reflexivity).
  vm_compute. discriminate.
Defined.

(** The wait for the receipt times out. *)
Lemma unconfirmed_broadcast_is_500_witness :
  convert Cases.stalled (Scenario.pay (Num (Num.dec 5 2))) Scenario.fresh =
    (inr (mkResponse 500 [("error", Str "timeout")]),
     mkState (Some Scenario.rpc) (Some Scenario.signer)
       (trace (booted Cases.stalled Scenario.fresh) ++
          [ EvGetBalance Scenario.rpc "0xF39f";
            EvGetTransactionCount Scenario.rpc "0xF39f";
            EvGetFeeData Scenario.rpc;
            EvSign Scenario.signer
              (buildTx (Scenario.pay (Num (Num.dec 5 2))) (5 * 10 ^ 16)
                       (Num.of_Z 7) (Some 30000000000));
            EvBroadcast Scenario.rpc "0x02f8";
            EvWait Scenario.rpc "0xabcd" ])).
Proof.
  apply (unconfirmed_broadcast_is_500 Cases.stalled
           (Scenario.pay (Num (Num.dec 5 2))) Scenario.fresh
           Scenario.rpc Scenario.signer Scenario.ether (Num.of_Z 7)
           (Some 30000000000) (5 * 10 ^ 16) "0x02f8" "0xabcd" "timeout");
    vm_compute; reflexivity.
Defined.

(** The node refuses the transaction. *)
Lemma rejected_broadcast_is_500_witness :
  convert Cases.rejecting (Scenario.pay (Num (Num.dec 5 2))) Scenario.fresh =
    (inr (mkResponse 500 [("error", Str "insufficient funds")]),
     mkState (Some Scenario.rpc) (Some Scenario.signer)
       (trace (booted Cases.rejecting Scenario.fresh) ++
          [ EvGetBalance Scenario.rpc "0xF39f";
            EvGetTransactionCount Scenario.rpc "0xF39f";
            EvGetFeeData Scenario.rpc;
            EvSign Scenario.signer
              (buildTx (Scenario.pay (Num (Num.dec 5 2))) (5 * 10 ^ 16)
                       (Num.of_Z 7) (Some 30000000000));
            EvBroadcast Scenario.rpc "0x02f8" ])).
Proof.
  apply (rejected_broadcast_is_500 Cases.rejecting
           (Scenario.pay (Num (Num.dec 5 2))) Scenario.fresh
           Scenario.rpc Scenario.signer Scenario.ether (Num.of_Z 7)
           (Some 30000000000) (5 * 10 ^ 16) "0x02f8" "insufficient funds");
    vm_compute; reflexivity.
Defined.

(** The balance query fails. *)
Lemma balance_failure_is_500_witness :
  convert Scenario.failing emptyBody Scenario.fresh =
    (inr (mkResponse 500 [("error", Str "could not coalesce error")]),
     mkState (Some Scenario.rpc) (Some Scenario.signer)
             (trace (booted Scenario.failing Scenario.fresh)
                ++ [EvGetBalance Scenario.rpc "0xF39f"])).
Proof.
  apply (balance_failure_is_500 Scenario.failing emptyBody Scenario.fresh
           Scenario.rpc Scenario.signer "could not coalesce error");
    vm_compute; reflexivity.
Defined.

(** [{amount: "Infinity"}]: it parses, passes both guards, and prints as
    "Infinity", which [parseEther] refuses. *)
Lemma unprintable_amount_is_500_witness :
  convert Scenario.funded (Scenario.pay (Str "Infinity")) Scenario.fresh =
    (inr (mkResponse 500 [("error", Str "invalid FixedNumber string value")]),
     mkState (Some Scenario.rpc) (Some Scenario.signer)
       (trace (booted Scenario.funded Scenario.fresh) ++
          [ EvGetBalance Scenario.rpc "0xF39f";
            EvGetTransactionCount Scenario.rpc "0xF39f";
            EvGetFeeData Scenario.rpc ])).
Proof.
  apply (unprintable_amount_is_500 Scenario.funded
           (Scenario.pay (Str "Infinity")) Scenario.fresh
           Scenario.rpc Scenario.signer Scenario.ether (Num.of_Z 7)
           (Some 30000000000) "invalid FixedNumber string value");
    vm_compute; reflexivity.
Defined.

(** [{amount: 0.05}] with 1 ether. *)
Lemma success_means_six_calls_witness :
  exists p w nonce gasPrice v signedTx h receipt,
    broadcastTransaction Scenario.funded p signedTx = inr h /\
    wait Scenario.funded p h = inr receipt /\
    Scenario.answer Scenario.funded (Scenario.pay (Num (Num.dec 5 2)))
      = converted Scenario.funded h w (Scenario.pay (Num (Num.dec 5 2))) receipt /\
    Scenario.final Scenario.funded (Scenario.pay (Num (Num.dec 5 2)))
      = mkState (Some p) (Some w)
          (trace (booted Scenario.funded Scenario.fresh) ++
             [ EvGetBalance p (address w);
               EvGetTransactionCount p (address w);
               EvGetFeeData p;
               EvSign w (buildTx (Scenario.pay (Num (Num.dec 5 2))) v nonce gasPrice);
               EvBroadcast p signedTx;
               EvWait p h ]).
Proof.
  apply (success_means_six_calls Scenario.funded
           (Scenario.pay (Num (Num.dec 5 2))) Scenario.fresh);
    vm_compute; reflexivity.
Defined.

(** A balance of 0.001 ether. *)
Lemma refusal_means_one_balance_query_witness :
  exists p w bal,
    getBalance Scenario.poor p (address w) = inr bal /\
    field "balance" (Scenario.answer Scenario.poor emptyBody)
      = Some (Num (balanceETH Scenario.poor bal)) /\
    Scenario.final Scenario.poor emptyBody
      = mkState (Some p) (Some w)
          (trace (booted Scenario.poor Scenario.fresh)
             ++ [EvGetBalance p (address w)]).
Proof.
  apply (refusal_means_one_balance_query Scenario.poor emptyBody Scenario.fresh);
    vm_compute; reflexivity.
Defined.

(** [/balance] for a wallet of 1 ether: the balance is the string "1.0". *)
Lemma balance_route_ok_witness :
  balance_route Scenario.funded Scenario.fresh =
    (inr (mkResponse 200
            [ ("wallet", Str "0xF39f");
              ("balance", Str "1.0");
              ("treasury", Str "0x4024Fd78E2AD5532FBF3ec2B3eC83870FAe45fC7") ]),
     mkState (Some Scenario.rpc) (Some Scenario.signer)
             (trace (booted Scenario.funded Scenario.fresh)
                ++ [EvGetBalance Scenario.rpc "0xF39f"])).
Proof.
  apply (balance_route_ok Scenario.funded Scenario.fresh Scenario.rpc
           Scenario.signer Scenario.ether); vm_compute; reflexivity.
Defined.

(** [/balance] without a private key. *)
Lemma balance_route_without_wallet_witness :
  balance_route Scenario.keyless Scenario.fresh =
    (inr (mkResponse 500
            [("error", Str "Cannot read properties of null (reading 'address')")]),
     booted Scenario.keyless Scenario.fresh).
Proof.
  apply (balance_route_without_wallet Scenario.keyless Scenario.fresh).
  vm_compute. reflexivity.
Defined.

(** [/status] for a wallet of 1 ether. *)
Lemma status_route_shows_balance_witness :
  fst (status_route Scenario.funded Scenario.running) =
    inr (mkResponse 200
           [ ("status", Str "online");
             ("method", Str "V2-SignBroadcast");
             ("wallet", Str "0xF39f");
             ("balance", Str "1.000000") ]).
Proof.
  apply (status_route_shows_balance Scenario.funded Scenario.running
           Scenario.rpc Scenario.signer Scenario.ether); reflexivity.
Defined.

(** [GET /withdraw] and [POST /status]. *)
Lemma wrong_method_runs_nothing_witness :
  (exists r, handle Scenario.funded 2 (mkRequest GET "/withdraw" emptyBody)
                    Scenario.fresh = Some (inr r, Scenario.fresh) /\
             status r = 404) /\
  (exists r, handle Scenario.funded 2 (mkRequest POST "/health" emptyBody)
                    Scenario.fresh = Some (inr r, Scenario.fresh) /\
             status r = 404).
Proof.
  split.
  - apply (wrong_method_runs_nothing Scenario.funded "/withdraw" emptyBody
             Scenario.fresh 1). cbn. tauto.
  - apply (wrong_method_runs_nothing Scenario.funded "/health" emptyBody
             Scenario.fresh 1). cbn. tauto.
Defined.

(** Two requests in a row. *)
Lemma second_request_does_not_probe_witness :
  exists p r evs,
    provider (snd (convert Scenario.funded (Scenario.pay (Num (Num.dec 5 2)))
                           Scenario.fresh)) = Some p /\
    convert Scenario.funded emptyBody
            (snd (convert Scenario.funded (Scenario.pay (Num (Num.dec 5 2)))
                          Scenario.fresh)) =
      (inr r,
       mkState (Some p) (Some Scenario.signer)
         (trace (snd (convert Scenario.funded (Scenario.pay (Num (Num.dec 5 2)))
                              Scenario.fresh)) ++ evs)) /\
    forallb (fun e => negb (is_probe e)) evs = true.
Proof.
  apply (second_request_does_not_probe Scenario.funded
           (Scenario.pay (Num (Num.dec 5 2))) emptyBody Scenario.fresh
           Scenario.signer).
  vm_compute. reflexivity.
Defined.

(** [{amount: 0.05}] with 1 ether. *)
Lemma success_echoes_signed_tx_witness :
  exists w tx,
    signed (trace (Scenario.final Scenario.funded (Scenario.pay (Num (Num.dec 5 2)))))
      = [tx] /\
    In (EvSign w tx)
       (trace (Scenario.final Scenario.funded (Scenario.pay (Num (Num.dec 5 2))))) /\
    field "from" (Scenario.answer Scenario.funded (Scenario.pay (Num (Num.dec 5 2))))
      = Some (Str (address w)) /\
    field "to" (Scenario.answer Scenario.funded (Scenario.pay (Num (Num.dec 5 2))))
      = Some (tx_to tx).
Proof.
  apply (success_echoes_signed_tx Scenario.funded
           (Scenario.pay (Num (Num.dec 5 2))) Scenario.fresh
           (Scenario.answer Scenario.funded (Scenario.pay (Num (Num.dec 5 2))))
           (Scenario.final Scenario.funded (Scenario.pay (Num (Num.dec 5 2)))));
    vm_compute; reflexivity.
Defined.

(** A wallet of exactly 0.002 ether, asked for 0.001. *)
Lemma balance_at_reserve_is_insufficient_witness :
  convert Cases.at_reserve (Scenario.pay (Num (Num.dec 1 3))) Scenario.fresh =
    (inr (mkResponse 400 [ ("error", Str "Insufficient after gas");
                           ("balance", Num lit_0_002) ]),
     mkState (Some Scenario.rpc) (Some Scenario.signer)
             (trace (booted Cases.at_reserve Scenario.fresh)
                ++ [EvGetBalance Scenario.rpc "0xF39f"])).
Proof.
  apply (balance_at_reserve_is_insufficient Cases.at_reserve
           (Scenario.pay (Num (Num.dec 1 3))) Scenario.fresh
           Scenario.rpc Scenario.signer (2 * 10 ^ 15)); vm_compute; reflexivity.
Defined.
